(** * Documentation generator (Home.py): prompt building, generation run,
      feedback revision and DOCX assembly.

    The development follows the source file top to bottom:
    - [PyStr]: the Python [str] methods the code calls, on byte strings;
    - [Docx]: the part of python-docx the assembler drives, as the sequence
      of blocks appended to the document body;
    - the section catalog [SECTIONS], [create_docx] and its loops;
    - the session state, the two LLM backends as an oracle, and the two
      button handlers of [main]: generation and feedback.

    Strings are Rocq [string]s (bytes); [upper] and the whitespace test are
    the ASCII part of Python's, and the document model takes any text. On
    plain text ([plain_text]: printable ASCII, tab, line feed, carriage
    return) the string functions are Python's and python-docx accepts the
    text; the statements that say when the assembler succeeds or fails, or
    what text it writes, for arbitrary input take plain text as a
    hypothesis. *)

From Stdlib Require Import String Ascii List Lia DecimalString Decimal.
From stdpp Require Import gmap strings list.

#[local] Set Warnings "-clear-no-such-hyp".

(** ** Python string methods *)

Module PyStr.

(** [str.isspace] on one ASCII character: tab to carriage return, the four
    separators 0x1c to 0x1f, and the space. *)
Definition is_space (c : ascii) : bool :=
  let n := nat_of_ascii c in
  (((9 <=? n) && (n <=? 13)) || ((28 <=? n) && (n <=? 32)))%nat.

Definition is_hash (c : ascii) : bool := Ascii.eqb c "#"%char.

Definition is_empty (s : string) : bool :=
  match s with EmptyString => true | String _ _ => false end.

(** Truth value of a string in a condition: non-empty. *)
Definition truthy (s : string) : bool := negb (is_empty s).

Fixpoint lstrip_by (p : ascii -> bool) (s : string) : string :=
  match s with
  | EmptyString => EmptyString
  | String c r => if p c then lstrip_by p r else s
  end.

Fixpoint rstrip_by (p : ascii -> bool) (s : string) : string :=
  match s with
  | EmptyString => EmptyString
  | String c r =>
      let r' := rstrip_by p r in
      if is_empty r' && p c then EmptyString else String c r'
  end.

Definition strip_by (p : ascii -> bool) (s : string) : string :=
  rstrip_by p (lstrip_by p s).

(** [s.strip()] *)
Definition strip (s : string) : string := strip_by is_space s.

(** [s.strip('#')] *)
Definition strip_hash (s : string) : string := strip_by is_hash s.

(** [s.startswith('#')] *)
Definition startswith_hash (s : string) : bool :=
  match s with
  | String c _ => is_hash c
  | EmptyString => false
  end.

(** [s.split()]: the maximal runs of non-whitespace characters. [cur] is
    the word being read. *)
Fixpoint split_go (s cur : string) : list string :=
  match s with
  | EmptyString => if is_empty cur then [] else [cur]
  | String c r =>
      if is_space c
      then (if is_empty cur then split_go r "" else cur :: split_go r "")
      else split_go r (cur +:+ String c "")
  end.

Definition split (s : string) : list string := split_go s "".

Definition newline : ascii := ascii_of_nat 10.

(** [s.split('\n\n')]: cut at each blank line, scanning left to right;
    always at least one piece. *)
Fixpoint split_blank_go (s cur : string) : list string :=
  match s with
  | EmptyString => [cur]
  | String c r =>
      match r with
      | String c' r' =>
          if Ascii.eqb c newline && Ascii.eqb c' newline
          then cur :: split_blank_go r' ""
          else split_blank_go r (cur +:+ String c "")
      | EmptyString => [cur +:+ String c ""]
      end
  end.

Definition split_blank (s : string) : list string := split_blank_go s "".

Definition upper_char (c : ascii) : ascii :=
  let n := nat_of_ascii c in
  if ((97 <=? n) && (n <=? 122))%nat then ascii_of_nat (n - 32) else c.

(** [s.upper()] *)
Fixpoint upper (s : string) : string :=
  match s with
  | EmptyString => EmptyString
  | String c r => String (upper_char c) (upper r)
  end.

(** [sep.join(l)] *)
Fixpoint join (sep : string) (l : list string) : string :=
  match l with
  | [] => ""
  | [x] => x
  | x :: r => x +:+ sep +:+ join sep r
  end.

(** [str(n)] for a non-negative integer. *)
Definition of_nat (n : nat) : string := NilEmpty.string_of_uint (Nat.to_uint n).

(** [t] occurs in [s] as a contiguous piece. *)
Definition contains (s t : string) : Prop :=
  exists pre post, s = pre +:+ t +:+ post.

End PyStr.

(** ** Exceptions *)

Inductive Exception :=
| ValueError (msg : string)
| KeyError (key : string)
| BackendError (msg : string).

(** [str(e)] *)
Definition str_of_exception (e : Exception) : string :=
  match e with
  | ValueError msg => msg
  | KeyError key => "'" +:+ key +:+ "'"
  | BackendError msg => msg
  end.

Inductive Exc (A : Type) :=
| Ok (a : A)
| Raise (e : Exception).
Arguments Ok {A} a.
Arguments Raise {A} e.

Definition exc_bind {A B} (k : A -> Exc B) (m : Exc A) : Exc B :=
  match m with
  | Ok a => k a
  | Raise e => Raise e
  end.

#[global] Instance Exc_bind : MBind Exc := @exc_bind.
#[global] Instance Exc_ret : MRet Exc := @Ok.

(** ** The python-docx document, as far as the assembler drives it *)

Module Docx.

Inductive Alignment := CENTER | LEFT | JUSTIFY.
Inductive LineSpacing := ONE_POINT_FIVE.

Record Run := mkRun {
  run_text : string;
  run_bold : bool;
  run_size : option nat
}.

Definition plain_run (text : string) : Run := mkRun text false None.

Inductive Block :=
| Heading (text : string) (level : nat) (alignment : option Alignment)
| Paragraph (runs : list Run) (alignment : option Alignment)
            (line_spacing : option LineSpacing)
| PageBreak.

Record Document := mkDocument {
  margins_inches : nat;
  different_first_page_header_footer : bool;
  body : list Block;
  footer_runs : list Run;
  footer_alignment : option Alignment
}.

(** [Document()] followed by the margin loop of [create_docx]. *)
Definition new_document : Document := mkDocument 1 true [] [] None.

Definition append_block (b : Block) (doc : Document) : Document :=
  mkDocument (margins_inches doc) (different_first_page_header_footer doc)
             (body doc ++ [b]) (footer_runs doc) (footer_alignment doc).

(** [h = doc.add_heading(text, level)], then [h.alignment = alignment] when
    the caller sets one. python-docx documents [add_heading] as raising
    [ValueError] when [level] is outside the range 0-9 (its template has the
    styles Title and Heading 1 to Heading 9 only), with this message. *)
Definition add_heading (text : string) (level : nat)
    (alignment : option Alignment) (doc : Document) : Exc Document :=
  if (level <=? 9)%nat
  then Ok (append_block (Heading text level alignment) doc)
  else Raise (ValueError ("level must be in range 0-9, got " +:+ PyStr.of_nat level)).

Definition add_paragraph (runs : list Run) (alignment : option Alignment)
    (line_spacing : option LineSpacing) (doc : Document) : Document :=
  append_block (Paragraph runs alignment line_spacing) doc.

Definition add_page_break (doc : Document) : Document :=
  append_block PageBreak doc.

Definition set_footer (runs : list Run) (alignment : option Alignment)
    (doc : Document) : Document :=
  mkDocument (margins_inches doc) (different_first_page_header_footer doc)
             (body doc) runs alignment.

Definition is_page_break (b : Block) : bool :=
  match b with PageBreak => true | _ => false end.

Definition page_breaks (doc : Document) : nat :=
  length (filter (fun b => is_page_break b = true) (body doc)).

End Docx.

Import Docx.

(** ** The section catalog *)

Record SectionSpec := mkSection {
  title : string;
  pages : nat;
  description : option string
}.

Definition SECTIONS : list (string * SectionSpec) :=
  [ ("COVER_PAGE", mkSection "COVER PAGE" 1 None);
    ("CONTENTS", mkSection "TABLE OF CONTENTS" 1 None);
    ("ABSTRACT", mkSection "ABSTRACT" 1
       (Some "Provides a high-level summary of the project, including objectives, methodology, and expected outcomes."));
    ("LITERATURE_SURVEY", mkSection "LITERATURE SURVEY" 3
       (Some "Reviews existing research, technologies, and methodologies related to the project."));
    ("CHAPTER_1", mkSection "CHAPTER 1: INTRODUCTION" 3
       (Some "Explains the background, significance, and objectives of the project."));
    ("CHAPTER_2", mkSection "CHAPTER 2: WORKING AND BLOCK DIAGRAM" 4
       (Some "Details the working principle and block diagram representation of the system."));
    ("CHAPTER_3", mkSection "CHAPTER 3: HARDWARE COMPONENTS DESCRIPTION" 5
       (Some "Describes the components used (Arduino, Bluetooth module, motor driver, sensors, etc.)."));
    ("CHAPTER_4", mkSection "CHAPTER 4: SOFTWARE DESCRIPTION" 4
       (Some "Covers programming aspects, including Arduino code and mobile app interface."));
    ("CHAPTER_5", mkSection "CHAPTER 5: ADVANTAGES & APPLICATIONS" 2
       (Some "Highlights benefits and potential real-world applications of the project."));
    ("CHAPTER_6", mkSection "CHAPTER 6: FUTURE SCOPE & CONCLUSION" 2
       (Some "Discusses improvements, extensions, and final remarks on the project."));
    ("REFERENCES", mkSection "REFERENCES" 1
       (Some "Lists cited sources, books, research papers, and online materials.")) ].

(** [section_info.get('description', '')] *)
Definition get_description (info : SectionSpec) : string :=
  default "" (description info).

(** [SECTIONS[key]] *)
Fixpoint lookup_section (key : string) (l : list (string * SectionSpec))
  : option SectionSpec :=
  match l with
  | [] => None
  | (k, info) :: r => if String.eqb k key then Some info else lookup_section key r
  end.

(** ** create_docx *)

(** [add_placeholder_toc] *)
Definition add_placeholder_toc (doc : Document) : Exc Document :=
  doc ← add_heading "TABLE OF CONTENTS" 1 None doc;
  let doc := add_paragraph
    [plain_run "This Table of Contents will automatically update when you open the document in Microsoft Word. Right-click and select 'Update Field' to update it."]
    None None doc in
  let doc := add_paragraph
    [mkRun "To replace this with an actual Table of Contents in Word:" true None]
    None None doc in
  let doc := add_paragraph [plain_run "1. Delete this text"] None None doc in
  let doc := add_paragraph [plain_run "2. Go to References tab"] None None doc in
  let doc := add_paragraph [plain_run "3. Click 'Table of Contents'"] None None doc in
  let doc := add_paragraph [plain_run "4. Select a style"] None None doc in
  Ok doc.

(** One paragraph unit of a section's text (the body of the inner loop). *)
Definition render_paragraph (para : string) (doc : Document) : Exc Document :=
  if PyStr.truthy (PyStr.strip para) then
    if PyStr.startswith_hash (PyStr.strip para) then
      let level := String.length (PyStr.strip_hash (hd "" (PyStr.split para))) in
      let text := PyStr.upper (PyStr.join " " (tl (PyStr.split para))) in
      add_heading text (level + 1) (Some LEFT) doc
    else
      Ok (add_paragraph [plain_run (PyStr.strip para)] (Some JUSTIFY)
                        (Some ONE_POINT_FIVE) doc)
  else Ok doc.

Fixpoint render_paragraphs (paras : list string) (doc : Document) : Exc Document :=
  match paras with
  | [] => Ok doc
  | para :: rest =>
      doc ← render_paragraph para doc;
      render_paragraphs rest doc
  end.

(** One iteration of the loop over [SECTIONS.items()]. *)
Definition render_section (doc_sections : gmap string string)
    (entry : string * SectionSpec) (doc : Document) : Exc Document :=
  let '(section_key, section_info) := entry in
  if String.eqb section_key "COVER_PAGE" || String.eqb section_key "CONTENTS"
  then Ok doc
  else
    doc ← add_heading (title section_info) 1 (Some CENTER) doc;
    doc ← match doc_sections !! section_key with
            | Some content => render_paragraphs (PyStr.split_blank content) doc
            | None => Ok doc
            end;
    Ok (add_page_break doc).

Fixpoint render_sections (doc_sections : gmap string string)
    (entries : list (string * SectionSpec)) (doc : Document) : Exc Document :=
  match entries with
  | [] => Ok doc
  | entry :: rest =>
      doc ← render_section doc_sections entry doc;
      render_sections doc_sections rest doc
  end.

(** The centered metadata lines of the cover page. *)
Fixpoint add_metadata_fields (metadata : gmap string string)
    (fields : list string) (doc : Document) : Document :=
  match fields with
  | [] => doc
  | field :: rest =>
      let doc :=
        match metadata !! field with
        | Some v =>
            if PyStr.truthy v
            then add_paragraph [mkRun (PyStr.upper v) false (Some 12)]
                               (Some CENTER) None doc
            else doc
        | None => doc
        end in
      add_metadata_fields metadata rest doc
  end.

(** The document [create_docx] builds before saving it. *)
Definition build_document (doc_sections metadata : gmap string string)
  : Exc Document :=
  let doc := new_document in
  doc ← add_heading
            (PyStr.upper (default "PROJECT DOCUMENTATION" (metadata !! "title")))
            0 (Some CENTER) doc;
  let doc := add_metadata_fields metadata ["author"; "institution"; "date"] doc in
  let doc := add_paragraph [plain_run "[Space reserved for project image]"]
                           (Some CENTER) None doc in
  let doc := add_page_break doc in
  doc ← add_placeholder_toc doc;
  let doc := add_page_break doc in
  doc ← render_sections doc_sections SECTIONS doc;
  Ok (set_footer [plain_run "Page "; plain_run "- {PAGE} -";
                  plain_run " (Open in Word to see actual page numbers)"]
                 (Some CENTER) doc).

Definition doc_path : string := "project_documentation.docx".

(** ** Prompt Builder *)

(** The f-string of the generation loop. *)
Definition build_prompt (section_info : SectionSpec)
    (project_type project_abstract technologies objectives components
     section_guidance : string) : string :=
  "Generate the "
  +:+ title section_info
  +:+ " section for the following "
  +:+ project_type
  +:+ " project:
                                
                                Abstract: "
  +:+ project_abstract
  +:+ "
                                
                                Section Purpose: "
  +:+ get_description section_info
  +:+ "
                                
                                Additional Context:
                                - Technologies: "
  +:+ technologies
  +:+ "
                                - Objectives: "
  +:+ objectives
  +:+ "
                                - Components: "
  +:+ components
  +:+ "
                                - "
  +:+ section_guidance
  +:+ "
                                
                                Requirements:
                                1. This section should be approximately "
  +:+ PyStr.of_nat (pages section_info)
  +:+ " pages long (about "
  +:+ PyStr.of_nat (pages section_info * 500)
  +:+ " words)
                                2. Use clear, straightforward explanations with appropriate technical depth
                                3. Organize content with clear sections and subsections
                                4. For headings, use plain text format (no special characters)
                                5. Write in a professional academic style with proper citations where appropriate
                                6. Use proper paragraph breaks for readability
                                7. Focus on factual information that would be relevant to this type of project
                                8. For CHAPTER_2, include descriptions of block diagrams (not the diagrams themselves)
                                9. Make this content unique, avoiding generic templates
                                10. Ensure all content is technically accurate and plausible
                                ".

(** The f-string of the feedback handler. *)
Definition build_feedback_prompt (section_info : SectionSpec)
    (current_content feedback : string) : string :=
  "Update the following documentation section based on user feedback:
                            
                            Current content:
                            "
  +:+ current_content
  +:+ "
                            
                            User feedback:
                            "
  +:+ feedback
  +:+ "
                            
                            Section Purpose: "
  +:+ get_description section_info
  +:+ "
                            
                            Requirements:
                            1. Maintain professional academic writing style
                            2. Implement the requested changes thoroughly
                            3. Keep the content within approximately "
  +:+ PyStr.of_nat (pages section_info * 500)
  +:+ " words
                            4. Ensure the text remains technically accurate
                            5. Use proper paragraph structure and organization
                            6. Ensure content flows logically
                            7. Use plain text format for headings (no special characters)
                            ".

(** Section-specific guidance of the generation loop. *)
Definition guidance_for (section_key : string) : string :=
  if String.eqb section_key "CHAPTER_3" then
    "Focus on hardware components like Arduino, sensors, and other electronic components. Describe their specifications and roles in detail."
  else if String.eqb section_key "CHAPTER_4" then
    "Explain the programming approach, include pseudocode or algorithm descriptions (not actual code), and detail the software workflow."
  else if String.eqb section_key "LITERATURE_SURVEY" then
    "Review at least 5-7 similar projects or related research papers, mentioning their approaches and results."
  else "".

(** ** Backends *)

Inductive Model := groq_model | google_model.

(** What [model.invoke(prompt)] gives: a response with its [content], or an
    exception. *)
Inductive Response :=
| Content (text : string)
| Failure (msg : string).

(** The two hosted models are outside the program: an oracle answers the
    [n]-th invocation of the session, given the model and the prompt. *)
Definition Oracle := nat -> Model -> string -> Response.

(** ** Session state and the world around it *)

Record FeedbackRecord := mkFeedback {
  fb_section : string;
  fb_feedback : string;
  fb_timestamp : nat
}.

Inductive Message :=
| Warning (text : string)
| Error (text : string)
| Success (text : string).

(** One [model.invoke]: which model, for which section, with which prompt. *)
Record Call := mkCall {
  call_model : Model;
  call_section : string;
  call_prompt : string
}.

(** One evaluation of the model choice in the generation loop: the section,
    [len(st.session_state.doc_sections)] at that moment, the model chosen. *)
Record Selection := mkSelection {
  sel_section : string;
  sel_count : nat;
  sel_model : Model
}.

(** [doc_sections], [metadata], [feedback_history], [has_generated] and the
    keyed widget values are [st.session_state]; [saved_docx] is the file
    project_documentation.docx; [ui] the messages shown; [calls] and
    [selections] record what the handlers did. *)
Record State := mkState {
  doc_sections : gmap string string;
  metadata : gmap string string;
  feedback_history : list FeedbackRecord;
  has_generated : bool;
  widgets : gmap string string;
  saved_docx : option Document;
  ui : list Message;
  calls : list Call;
  selections : list Selection
}.

Definition with_doc_sections (ds : gmap string string) (st : State) : State :=
  mkState ds (metadata st) (feedback_history st) (has_generated st)
          (widgets st) (saved_docx st) (ui st) (calls st) (selections st).

Definition with_feedback_history (fh : list FeedbackRecord) (st : State) : State :=
  mkState (doc_sections st) (metadata st) fh (has_generated st)
          (widgets st) (saved_docx st) (ui st) (calls st) (selections st).

Definition with_has_generated (b : bool) (st : State) : State :=
  mkState (doc_sections st) (metadata st) (feedback_history st) b
          (widgets st) (saved_docx st) (ui st) (calls st) (selections st).

Definition with_saved_docx (f : option Document) (st : State) : State :=
  mkState (doc_sections st) (metadata st) (feedback_history st) (has_generated st)
          (widgets st) f (ui st) (calls st) (selections st).

Definition with_ui (u : list Message) (st : State) : State :=
  mkState (doc_sections st) (metadata st) (feedback_history st) (has_generated st)
          (widgets st) (saved_docx st) u (calls st) (selections st).

Definition with_calls (c : list Call) (st : State) : State :=
  mkState (doc_sections st) (metadata st) (feedback_history st) (has_generated st)
          (widgets st) (saved_docx st) (ui st) c (selections st).

Definition with_selections (s : list Selection) (st : State) : State :=
  mkState (doc_sections st) (metadata st) (feedback_history st) (has_generated st)
          (widgets st) (saved_docx st) (ui st) (calls st) s.

(** A handler step: it may raise, and the state it leaves is kept either
    way, as Python keeps the assignments made before an exception. *)
Definition M (A : Type) : Type := State -> Exc A * State.

Definition m_ret {A} (a : A) : M A := fun st => (Ok a, st).

Definition m_bind {A B} (k : A -> M B) (m : M A) : M B :=
  fun st =>
    match m st with
    | (Ok a, st') => k a st'
    | (Raise e, st') => (Raise e, st')
    end.

#[global] Instance M_ret : MRet M := @m_ret.
#[global] Instance M_bind : MBind M := @m_bind.

Definition raise {A} (e : Exception) : M A := fun st => (Raise e, st).
Definition gets {A} (f : State -> A) : M A := fun st => (Ok (f st), st).
Definition modify (f : State -> State) : M unit := fun st => (Ok tt, f st).

(** [for x in l: f x] *)
Fixpoint for_each {A} (f : A -> M unit) (l : list A) : M unit :=
  match l with
  | [] => mret tt
  | x :: rest => _ ← f x; for_each f rest
  end.

(** [try: body / except Exception as e: handler e] *)
Definition try_except (body : M unit) (handler : Exception -> M unit)
  : State -> State :=
  fun st =>
    match body st with
    | (Ok _, st') => st'
    | (Raise e, st') => snd (handler e st')
    end.

(** [st.warning], [st.error], [st.success] *)
Definition emit (msg : Message) : M unit :=
  modify (fun st => with_ui (ui st ++ [msg]) st).

(** [st.session_state.doc_sections[key] = text] *)
Definition store_section (key text : string) : M unit :=
  modify (fun st => with_doc_sections (<[key := text]> (doc_sections st)) st).

(** [st.session_state.get(key, "")] for a keyed widget. *)
Definition widget (key : string) : M string :=
  gets (fun st => default "" (widgets st !! key)).

(** [model.invoke(prompt).content] *)
Definition invoke (oracle : Oracle) (model : Model) (section_key prompt : string)
  : M string :=
  fun st =>
    let st' := with_calls (calls st ++ [mkCall model section_key prompt]) st in
    match oracle (length (calls st)) model prompt with
    | Content text => (Ok text, st')
    | Failure msg => (Raise (BackendError msg), st')
    end.

(** [create_docx(metadata)]: build the document from the session's
    [doc_sections], save it, return the path. *)
Definition create_docx (metadata : gmap string string) : M string :=
  fun st =>
    match build_document (doc_sections st) metadata with
    | Ok doc => (Ok doc_path, with_saved_docx (Some doc) st)
    | Raise e => (Raise e, st)
    end.

(** ** Generation run *)

(** [groq_model if len(doc_sections) % 2 == 0 else google_model] *)
Definition select_model (count : nat) : Model :=
  if (count mod 2 =? 0)%nat then groq_model else google_model.

Definition contents_literal : string := "TABLE OF CONTENTS".

(** One iteration of the loop over [SECTIONS.items()] in the handler. *)
Definition generate_section (oracle : Oracle) (project_abstract : string)
    (entry : string * SectionSpec) : M unit :=
  let '(section_key, section_info) := entry in
  if String.eqb section_key "COVER_PAGE" then mret tt
  else
    count ← gets (fun st => size (doc_sections st));
    let model := select_model count in
    _ ← modify (fun st =>
          with_selections (selections st ++ [mkSelection section_key count model]) st);
    technologies ← widget "technologies";
    objectives ← widget "objectives";
    components ← widget "components";
    project_type ← gets (fun st => default "" (metadata st !! "project_type"));
    let prompt := build_prompt section_info project_type project_abstract
                    technologies objectives components (guidance_for section_key) in
    if String.eqb section_key "CONTENTS"
    then store_section section_key contents_literal
    else
      content ← invoke oracle model section_key prompt;
      store_section section_key content.

Definition generate_sections (oracle : Oracle) (project_abstract : string)
    (catalog : list (string * SectionSpec)) : M unit :=
  for_each (generate_section oracle project_abstract) catalog.

(** The body of the [try] of the generation handler. The progress bar and
    [st.rerun()] that follow the success message store nothing. *)
Definition generate_documentation (oracle : Oracle) (project_abstract : string)
  : M unit :=
  _ ← modify (with_doc_sections ∅);
  _ ← generate_sections oracle project_abstract SECTIONS;
  md ← gets metadata;
  _ ← create_docx md;
  _ ← modify (with_has_generated true);
  emit (Success "Documentation generated successfully!").

(** The handler of the button Generate Documentation. *)
Definition on_generate (oracle : Oracle) (project_abstract : string)
  : State -> State :=
  fun st =>
    if PyStr.truthy project_abstract then
      try_except (generate_documentation oracle project_abstract)
        (fun e => emit (Error ("Error generating documentation: "
                               +:+ str_of_exception e))) st
    else snd (emit (Warning "Please enter a project abstract.") st).

(** ** Feedback *)

(** [google_model if len(feedback_history) % 2 == 0 else groq_model] *)
Definition select_feedback_model (count : nat) : Model :=
  if (count mod 2 =? 0)%nat then google_model else groq_model.

Definition lookup_or_raise {A} (o : option A) (key : string) : M A :=
  match o with
  | Some a => mret a
  | None => raise (KeyError key)
  end.

(** The body of the [try] of the feedback handler; [now] is
    [datetime.now()]. *)
Definition revise_section (oracle : Oracle) (now : nat)
    (selected_section feedback : string) : M unit :=
  count ← gets (fun st => length (feedback_history st));
  let model := select_feedback_model count in
  ds ← gets doc_sections;
  current ← lookup_or_raise (ds !! selected_section) selected_section;
  section_info ← lookup_or_raise (lookup_section selected_section SECTIONS)
                                 selected_section;
  let prompt := build_feedback_prompt section_info current feedback in
  content ← invoke oracle model selected_section prompt;
  _ ← store_section selected_section content;
  md ← gets metadata;
  _ ← create_docx md;
  _ ← modify (fun st =>
        with_feedback_history
          (feedback_history st ++ [mkFeedback (title section_info) feedback now]) st);
  emit (Success "Section updated successfully!").

(** The handler of the button Submit Feedback. *)
Definition on_submit_feedback (oracle : Oracle) (now : nat)
    (selected_section feedback : string) : State -> State :=
  try_except (revise_section oracle now selected_section feedback)
    (fun e => emit (Error ("Error updating section: " +:+ str_of_exception e))).

(** A fresh session, as the top of the script initialises it. *)
Definition initial_state : State :=
  mkState ∅ ∅ [] false ∅ None [] [] [].

(** ** Vocabulary of the statements *)

(** The two front-matter entries of the catalog. *)
Definition is_front_matter (key : string) : bool :=
  String.eqb key "COVER_PAGE" || String.eqb key "CONTENTS".

(** The catalog entries [create_docx] renders as chapters. *)
Definition chapters (catalog : list (string * SectionSpec))
  : list (string * SectionSpec) :=
  List.filter (fun entry => negb (is_front_matter (fst entry))) catalog.

(** The keys the generation loop stores: all but the cover page. *)
Definition generated_keys (catalog : list (string * SectionSpec)) : list string :=
  List.filter (fun key => negb (String.eqb key "COVER_PAGE")) (map fst catalog).

(** The level-1 headings of a body, with their alignment. *)
Definition level1_headings (blocks : list Block) : list (string * option Alignment) :=
  flat_map (fun b => match b with
                     | Heading text 1 al => [(text, al)]
                     | _ => []
                     end) blocks.

(** The chapter headings of a body: level 1, centered. *)
Definition chapter_headings (blocks : list Block) : list string :=
  flat_map (fun b => match b with
                     | Heading text 1 (Some CENTER) => [text]
                     | _ => []
                     end) blocks.

(** A backend that always answers [text]. *)
Definition constant_oracle (text : string) : Oracle :=
  fun _ _ _ => Content text.

(** A backend whose [n]-th invocation fails and whose others answer [text]. *)
Definition failing_oracle (n : nat) (text msg : string) : Oracle :=
  fun i _ _ => if Nat.eqb i n then Failure msg else Content text.

Definition robot_car_abstract : string :=
  "A Bluetooth-controlled robot car using Arduino".

Definition robot_car_session : State :=
  mkState ∅ {[ "project_type" := "Arduino-based" ]} [] false ∅ None [] [] [].

(** What a handler leaves alone while it only generates sections. *)
Definition frame (st st' : State) : Prop :=
  metadata st' = metadata st /\
  widgets st' = widgets st /\
  feedback_history st' = feedback_history st /\
  has_generated st' = has_generated st /\
  saved_docx st' = saved_docx st /\
  ui st' = ui st.

(** The prompt of the generation loop for one catalog entry, from the
    abstract and the session's inputs. *)
Definition prompt_for (project_abstract : string) (st : State)
    (section_key : string) (section_info : SectionSpec) : string :=
  build_prompt section_info
    (default "" (metadata st !! "project_type"))
    project_abstract
    (default "" (widgets st !! "technologies"))
    (default "" (widgets st !! "objectives"))
    (default "" (widgets st !! "components"))
    (guidance_for section_key).

(** A backend call of the generation loop: for a catalog entry that is
    neither the cover page nor the contents, with that entry's prompt. *)
Definition generated_call (project_abstract : string)
    (catalog : list (string * SectionSpec)) (st : State) (c : Call) : Prop :=
  call_section c <> "COVER_PAGE" /\
  call_section c <> "CONTENTS" /\
  exists info, In (call_section c, info) catalog /\
               call_prompt c = prompt_for project_abstract st (call_section c) info.

(** The generation loop only appends such calls, inside the frame. *)
Definition run_rel (project_abstract : string)
    (catalog : list (string * SectionSpec)) (st st' : State) : Prop :=
  frame st st' /\
  exists new, calls st' = calls st ++ new /\
              Forall (generated_call project_abstract catalog st) new.

(** The state after the model choice for [key] has been recorded. *)
Definition selected (key : string) (st : State) : State :=
  with_selections
    (selections st ++
       [mkSelection key (size (doc_sections st))
                    (select_model (size (doc_sections st)))]) st.

(** A block of a chapter's body: a left-aligned sub-heading or a paragraph. *)
Definition content_block (b : Block) : Prop :=
  match b with
  | Heading _ _ (Some LEFT) => True
  | Paragraph _ _ _ => True
  | _ => False
  end.

(** The number of page breaks among some blocks. *)
Definition count_breaks (blocks : list Block) : nat :=
  length (filter (fun b => is_page_break b = true) blocks).

Definition is_value_error (e : Exception) : Prop :=
  match e with ValueError _ => True | _ => False end.

(** A session after a full generation run with the constant backend. *)
Definition generated_session : State :=
  on_generate (constant_oracle "text") robot_car_abstract robot_car_session.

(** A run of [n] heading markers. *)
Fixpoint markers (n : nat) : string :=
  match n with
  | O => ""
  | S n' => String "#" (markers n')
  end.

(** ** The rest of [main]: inputs, review panel, downloads, events *)

(** [True] exactly when nothing was raised. *)
Definition is_ok {A} (r : Exc A) : bool :=
  match r with Ok _ => true | Raise _ => false end.

(** The paragraphs [create_docx] can render: those that are blank or body
    text, and the marker paragraphs whose heading level, [level + 1], is one
    python-docx accepts. *)
Definition paragraph_fits (para : string) : bool :=
  negb (PyStr.truthy (PyStr.strip para) && PyStr.startswith_hash (PyStr.strip para))
  || (String.length (PyStr.strip_hash (hd "" (PyStr.split para))) + 1 <=? 9)%nat.

Definition content_fits (content : string) : bool :=
  forallb paragraph_fits (PyStr.split_blank content).

Definition sections_fit (doc_sections : gmap string string)
    (catalog : list (string * SectionSpec)) : bool :=
  forallb (fun entry => match doc_sections !! fst entry with
                        | Some content => content_fits content
                        | None => true
                        end) (chapters catalog).

(** A chapter with no text: its heading and its page break. *)
Definition empty_chapter (entry : string * SectionSpec) : list Block :=
  [Heading (title (snd entry)) 1 (Some CENTER); PageBreak].

(** The values the input widgets hold in one run of the script; [in_date]
    is [datetime.now().strftime("%B %d, %Y")]. *)
Record Inputs := mkInputs {
  in_title : string;
  in_author : string;
  in_institution : string;
  in_project_type : string;
  in_date : string;
  in_technologies : string;
  in_objectives : string;
  in_components : string
}.

(** The dict assigned to [st.session_state.metadata] in every run. *)
Definition main_metadata (i : Inputs) : gmap string string :=
  <["date" := in_date i]>
    (<["project_type" := in_project_type i]>
       (<["institution" := in_institution i]>
          (<["author" := in_author i]>
             (<["title" := in_title i]> ∅)))).

(** The session entries of the keyed widgets. *)
Definition main_widgets (i : Inputs) : gmap string string :=
  <["components" := in_components i]>
    (<["objectives" := in_objectives i]>
       (<["technologies" := in_technologies i]>
          (<["project_type" := in_project_type i]>
             (<["institution" := in_institution i]>
                (<["author" := in_author i]>
                   (<["title" := in_title i]> ∅)))))).

(** What a run of the script stores before it looks at the buttons. *)
Definition script_inputs (i : Inputs) (st : State) : State :=
  mkState (doc_sections st) (main_metadata i) (feedback_history st)
          (has_generated st) (main_widgets i) (saved_docx st) (ui st)
          (calls st) (selections st).

(** The centered lines under the cover title, for the values given. *)
Definition cover_lines (values : list string) : list Block :=
  flat_map (fun v => if PyStr.truthy v
                     then [Paragraph [mkRun (PyStr.upper v) false (Some 12)]
                                     (Some CENTER) None]
                     else []) values.

(** The options of the select box of the review panel. *)
Definition review_options : list string :=
  List.filter (fun k => negb (String.eqb k "COVER_PAGE") && negb (String.eqb k "CONTENTS"))
              (map fst SECTIONS).

(** The download button of the review panel: not shown ([None]) before a
    generation, else the file it opens, [Some None] when there is none. *)
Definition review_download (st : State) : option (option Document) :=
  if has_generated st then Some (saved_docx st) else None.

(** The download button of the header, guarded by [os.path.exists]. *)
Definition nav_download (st : State) : option Document :=
  if has_generated st then saved_docx st else None.

(** What a user can do to the session: change the inputs, press Generate
    Documentation, submit feedback from the review panel. *)
Inductive Event :=
| EvInputs (i : Inputs)
| EvGenerate (project_abstract : string)
| EvFeedback (now : nat) (selected_section feedback : string).

(** The review panel exists once [has_generated] is set, and its select box
    offers [review_options] only. *)
Definition handle (oracle : Oracle) (st : State) (ev : Event) : State :=
  match ev with
  | EvInputs i => script_inputs i st
  | EvGenerate a => on_generate oracle a st
  | EvFeedback now sel fb =>
      if has_generated st && existsb (String.eqb sel) review_options
      then on_submit_feedback oracle now sel fb st
      else st
  end.

Definition run_events (oracle : Oracle) (evs : list Event) (st : State) : State :=
  fold_left (handle oracle) evs st.

(** The backend calls a completed loop makes, as (section, model), when it
    starts with [count] sections stored. *)
Fixpoint expected_calls (count : nat) (catalog : list (string * SectionSpec))
  : list (string * Model) :=
  match catalog with
  | [] => []
  | (key, _) :: rest =>
      if String.eqb key "COVER_PAGE" then expected_calls count rest
      else if String.eqb key "CONTENTS" then expected_calls (S count) rest
      else (key, select_model count) :: expected_calls (S count) rest
  end.

(** A backend that answers one paragraph python-docx cannot take. *)
Definition marker_word_oracle : Oracle := constant_oracle "#Introduction".

Definition sample_inputs : Inputs :=
  mkInputs "Robot car" "" "Institute" "Arduino-based" "November 03, 2026"
           "Arduino Uno" "" "".

(** A session whose first chapter holds a paragraph python-docx cannot take. *)
Definition marker_session : State :=
  with_doc_sections {[ "CHAPTER_1" := "#Introduction" ]} robot_car_session.

(** What holds of the session after any sequence of events. *)
Definition session_inv (st : State) : Prop :=
  (has_generated st = true -> is_Some (saved_docx st)) /\
  (forall doc, saved_docx st = Some doc ->
     chapter_headings (body doc) =
       map (fun entry => title (snd entry)) (chapters SECTIONS) /\
     page_breaks doc = 11) /\
  dom (doc_sections st) ⊆ list_to_set (generated_keys SECTIONS) /\
  (doc_sections st !! "CONTENTS" = None \/
   doc_sections st !! "CONTENTS" = Some contents_literal).

(** Plain text: printable ASCII, tab, line feed and carriage return. On
    such text the byte strings here are Python's strings: [len] counts the
    same characters, [strip], [split] and [upper] act as Python's, and
    python-docx accepts the text in a heading or a paragraph. *)
Definition plain_char (c : ascii) : bool :=
  let n := nat_of_ascii c in
  ((n =? 9) || (n =? 10) || (n =? 13) || ((32 <=? n) && (n <=? 126)))%nat.

Fixpoint plain_text (s : string) : bool :=
  match s with
  | EmptyString => true
  | String c r => plain_char c && plain_text r
  end.

(** Every value of a mapping is plain text. *)
Definition plain_values (m : gmap string string) : bool :=
  forallb (fun kv => plain_text (snd kv)) (map_to_list m).

(** * Properties *)

(** ** Strings *)

Section Contains.

Lemma contains_head (t post : string) : PyStr.contains (t +:+ post) t.
Proof. exists "", post. reflexivity. Qed.

Lemma append_assoc' (a b c : string) : (a +:+ b) +:+ c = a +:+ (b +:+ c).
Proof.
  induction a as [|x a IH]; [reflexivity|].
  change (String x ((a +:+ b) +:+ c) = String x (a +:+ (b +:+ c))).
  now rewrite IH.
Qed.

Lemma contains_skip (p s t : string) :
  PyStr.contains s t -> PyStr.contains (p +:+ s) t.
Proof.
  intros (pre & post & ->). exists (p +:+ pre), post.
  symmetry. apply append_assoc'.
Qed.

End Contains.

Lemma build_prompt_contains (info : SectionSpec)
    (project_type abstract technologies objectives components guidance : string) :
  let prompt := build_prompt info project_type abstract technologies objectives
                             components guidance in
  PyStr.contains prompt (title info) /\
  PyStr.contains prompt abstract /\
  PyStr.contains prompt technologies /\
  PyStr.contains prompt objectives /\
  PyStr.contains prompt components.
Proof.
  cbv zeta. unfold build_prompt.
  repeat split; repeat first [apply contains_head | apply contains_skip].
Qed.

(** ** Loops and exceptions *)

Section ForEach.

Context {A : Type} (f : A -> M unit).

Lemma for_each_cons (x : A) (l : list A) (st : State) :
  for_each f (x :: l) st =
  match f x st with
  | (Ok _, st') => for_each f l st'
  | (Raise e, st') => (Raise e, st')
  end.
Proof. reflexivity. Qed.

Lemma for_each_nil (st : State) : for_each f [] st = (Ok tt, st).
Proof. reflexivity. Qed.

(** A loop that raises did so in one iteration, after completing the ones
    before it. *)
Lemma for_each_raise (l : list A) :
  forall st e st',
    for_each f l st = (Raise e, st') ->
    exists done x rest st_d,
      l = done ++ x :: rest /\
      for_each f done st = (Ok tt, st_d) /\
      f x st_d = (Raise e, st').
Proof.
  induction l as [|x l IH]; intros st e st' H.
  - rewrite for_each_nil in H. discriminate.
  - rewrite for_each_cons in H.
    destruct (f x st) as [[[]|e0] st1] eqn:Hx.
    + destruct (IH _ _ _ H) as (done & y & rest & st_d & -> & Hd & Hy).
      exists (x :: done), y, rest, st_d. repeat split; [|exact Hy].
      rewrite for_each_cons, Hx. exact Hd.
    + inversion H; subst. exists [], x, l, st. repeat split. exact Hx.
Qed.

(** A reflexive, transitive relation kept by every iteration is kept by the
    loop, whether it completes or raises. *)
Lemma for_each_steps (R : State -> State -> Prop) (l : list A) :
  (forall st, R st st) ->
  (forall s1 s2 s3, R s1 s2 -> R s2 s3 -> R s1 s3) ->
  (forall x st r st', In x l -> f x st = (r, st') -> R st st') ->
  forall st r st', for_each f l st = (r, st') -> R st st'.
Proof.
  intros Hrefl Htrans. induction l as [|x l IH]; intros Hstep st r st' H.
  - rewrite for_each_nil in H. inversion H; subst. apply Hrefl.
  - rewrite for_each_cons in H.
    destruct (f x st) as [[u|e0] st1] eqn:Hx.
    + apply Htrans with st1.
      * eapply Hstep; [left; reflexivity | exact Hx].
      * eapply IH; [|exact H]. intros y s q s' Hy. apply Hstep. now right.
    + inversion H; subst. eapply Hstep; [left; reflexivity | exact Hx].
Qed.

End ForEach.

(** ** One iteration of the generation loop *)

Section GenerateSection.

Variable oracle : Oracle.
Variable a : string.

Lemma generate_section_cover (info : SectionSpec) (st : State) :
  generate_section oracle a ("COVER_PAGE", info) st = (Ok tt, st).
Proof. reflexivity. Qed.

Lemma generate_section_contents (info : SectionSpec) (st : State) :
  generate_section oracle a ("CONTENTS", info) st =
  (Ok tt, with_doc_sections (<["CONTENTS" := contents_literal]> (doc_sections st))
                            (selected "CONTENTS" st)).
Proof. reflexivity. Qed.

Lemma generate_section_other (key : string) (info : SectionSpec) (st : State) :
  String.eqb key "COVER_PAGE" = false ->
  String.eqb key "CONTENTS" = false ->
  generate_section oracle a (key, info) st =
  let model := select_model (size (doc_sections st)) in
  let prompt := prompt_for a st key info in
  let st1 := with_calls (calls st ++ [mkCall model key prompt]) (selected key st) in
  match oracle (length (calls st)) model prompt with
  | Content text =>
      (Ok tt, with_doc_sections (<[key := text]> (doc_sections st)) st1)
  | Failure msg => (Raise (BackendError msg), st1)
  end.
Proof.
  intros Hc Ht. unfold generate_section. rewrite Hc, Ht.
  cbv zeta. unfold prompt_for.
  destruct (oracle _ _ _) eqn:Ho;
    unfold mbind, M_bind, m_bind, gets, modify, widget, invoke, store_section;
    cbn; rewrite Ho; reflexivity.
Qed.

End GenerateSection.

(** ** The generation loop *)

Section GenerateSections.

Variable oracle : Oracle.
Variable a : string.

Lemma frame_refl (st : State) : frame st st.
Proof. unfold frame. tauto. Qed.

Lemma frame_trans (s1 s2 s3 : State) : frame s1 s2 -> frame s2 s3 -> frame s1 s3.
Proof. unfold frame. intuition congruence. Qed.

Lemma prompt_for_frame (s1 s2 : State) (key : string) (info : SectionSpec) :
  frame s1 s2 -> prompt_for a s2 key info = prompt_for a s1 key info.
Proof. intros (Hm & Hw & _). unfold prompt_for. now rewrite Hm, Hw. Qed.

Lemma run_rel_refl (l : list (string * SectionSpec)) (st : State) :
  run_rel a l st st.
Proof.
  split; [apply frame_refl|]. exists []. split; [now rewrite app_nil_r | constructor].
Qed.

Lemma run_rel_trans (l : list (string * SectionSpec)) (s1 s2 s3 : State) :
  run_rel a l s1 s2 -> run_rel a l s2 s3 -> run_rel a l s1 s3.
Proof.
  intros [F1 (n1 & E1 & G1)] [F2 (n2 & E2 & G2)].
  split; [eapply frame_trans; eassumption|].
  exists (n1 ++ n2). split.
  - rewrite E2, E1. now rewrite app_assoc.
  - apply Forall_app. split; [exact G1|].
    eapply Forall_impl; [exact G2|].
    intros c (H1 & H2 & info & Hin & Hp).
    repeat split; [exact H1 | exact H2 |].
    exists info. split; [exact Hin|]. rewrite Hp. now apply prompt_for_frame.
Qed.

Lemma eqb_false_neq (x y : string) : String.eqb x y = false -> x <> y.
Proof. intros H ->. rewrite String.eqb_refl in H. discriminate. Qed.

(** One iteration only appends a call of its own entry and stays in the
    frame. *)
Lemma generate_section_rel (l : list (string * SectionSpec))
    (entry : string * SectionSpec) (st : State) (r : Exc unit) (st' : State) :
  In entry l ->
  generate_section oracle a entry st = (r, st') ->
  run_rel a l st st'.
Proof.
  destruct entry as [key info]. intros Hin H.
  destruct (String.eqb key "COVER_PAGE") eqn:Hc.
  { apply String.eqb_eq in Hc. subst key. rewrite generate_section_cover in H.
    inversion H; subst. apply run_rel_refl. }
  destruct (String.eqb key "CONTENTS") eqn:Ht.
  { apply String.eqb_eq in Ht. subst key. rewrite generate_section_contents in H.
    inversion H; subst. split; [unfold frame; cbn; tauto|].
    exists []. cbn. split; [now rewrite app_nil_r | constructor]. }
  rewrite (generate_section_other _ _ _ _ _ Hc Ht) in H. cbv zeta in H.
  assert (Hcall : generated_call a l st
            (mkCall (select_model (size (doc_sections st))) key
                    (prompt_for a st key info))).
  { repeat split; cbn; [now apply eqb_false_neq | now apply eqb_false_neq |].
    exists info. split; [exact Hin | reflexivity]. }
  destruct (oracle _ _ _); inversion H; subst;
    (split; [unfold frame; cbn; tauto|]);
    eexists; (split; [cbn; reflexivity | constructor; [exact Hcall | constructor]]).
Qed.

Lemma generate_sections_rel (l : list (string * SectionSpec))
    (st : State) (r : Exc unit) (st' : State) :
  generate_sections oracle a l st = (r, st') -> run_rel a l st st'.
Proof.
  unfold generate_sections.
  apply (for_each_steps (generate_section oracle a) (run_rel a l) l).
  - apply run_rel_refl.
  - apply run_rel_trans.
  - intros x s q s' Hin H. eapply generate_section_rel; eassumption.
Qed.

(** An iteration stores under its own key only. *)
Lemma generate_section_lookup_other (entry : string * SectionSpec) (k : string)
    (st : State) (r : Exc unit) (st' : State) :
  k <> fst entry ->
  generate_section oracle a entry st = (r, st') ->
  doc_sections st' !! k = doc_sections st !! k.
Proof.
  destruct entry as [key info]. cbn [fst]. intros Hk H.
  destruct (String.eqb key "COVER_PAGE") eqn:Hc.
  { apply String.eqb_eq in Hc. subst key. rewrite generate_section_cover in H.
    now inversion H. }
  destruct (String.eqb key "CONTENTS") eqn:Ht.
  { apply String.eqb_eq in Ht. subst key. rewrite generate_section_contents in H.
    inversion H; subst. cbn. now rewrite lookup_insert_ne. }
  rewrite (generate_section_other _ _ _ _ _ Hc Ht) in H. cbv zeta in H.
  destruct (oracle _ _ _); inversion H; subst; cbn; [|reflexivity].
  now rewrite lookup_insert_ne.
Qed.

Lemma generate_sections_lookup_other (l : list (string * SectionSpec)) (k : string) :
  ~ In k (map fst l) ->
  forall st r st',
    generate_sections oracle a l st = (r, st') ->
    doc_sections st' !! k = doc_sections st !! k.
Proof.
  intros Hk. unfold generate_sections.
  apply (for_each_steps (generate_section oracle a)
           (fun s s' => doc_sections s' !! k = doc_sections s !! k) l).
  - reflexivity.
  - intros s1 s2 s3 H1 H2. congruence.
  - intros x s q s' Hin H. eapply generate_section_lookup_other; [|exact H].
    intros ->. apply Hk. now apply in_map.
Qed.

(** The loop keeps the contents literal once it is stored. *)
Lemma generate_sections_keep_contents (l : list (string * SectionSpec)) :
  forall st r st',
    generate_sections oracle a l st = (r, st') ->
    doc_sections st !! "CONTENTS" = Some contents_literal ->
    doc_sections st' !! "CONTENTS" = Some contents_literal.
Proof.
  unfold generate_sections.
  apply (for_each_steps (generate_section oracle a)
           (fun s s' => doc_sections s !! "CONTENTS" = Some contents_literal ->
                        doc_sections s' !! "CONTENTS" = Some contents_literal) l).
  - auto.
  - auto.
  - intros [key info] s q s' _ H Hs.
    destruct (String.eqb key "CONTENTS") eqn:Ht.
    + apply String.eqb_eq in Ht. subst key. rewrite generate_section_contents in H.
      inversion H; subst. cbn. apply lookup_insert_eq.
    + rewrite <- Hs. eapply generate_section_lookup_other; [|exact H].
      cbn [fst]. intros E. subst key. rewrite String.eqb_refl in Ht. discriminate.
Qed.

End GenerateSections.

(** ** Model choice *)

Lemma select_model_even (n : nat) :
  select_model n = if Nat.even n then groq_model else google_model.
Proof.
  unfold select_model.
  destruct (Nat.even n) eqn:E.
  - apply Nat.even_spec in E. destruct E as [m ->].
    now rewrite Nat.mul_comm, Nat.Div0.mod_mul.
  - assert (O : Nat.odd n = true) by (now rewrite <- Nat.negb_even, E).
    apply Nat.odd_spec in O. destruct O as [m ->].
    now rewrite Nat.add_comm, Nat.mul_comm, Nat.Div0.mod_add.
Qed.

Lemma select_model_Even (n : nat) : Nat.Even n -> select_model n = groq_model.
Proof.
  intros E. rewrite select_model_even.
  apply Nat.even_spec in E. now rewrite E.
Qed.

Lemma select_model_Odd (n : nat) : Nat.Odd n -> select_model n = google_model.
Proof.
  intros O. rewrite select_model_even.
  apply Nat.odd_spec in O. rewrite <- Nat.negb_even in O.
  now destruct (Nat.even n).
Qed.

Section Selections.

Variable oracle : Oracle.
Variable a : string.

(** Over a catalog with distinct keys none of which is stored yet, the
    [i]-th model choice of the loop sees [i] more stored sections than the
    loop started with. *)
Lemma generate_sections_selections (l : list (string * SectionSpec)) :
  forall st r st',
    NoDup (map fst l) ->
    (forall k, In k (map fst l) -> doc_sections st !! k = None) ->
    generate_sections oracle a l st = (r, st') ->
    exists new,
      selections st' = selections st ++ new /\
      forall i s, new !! i = Some s ->
        sel_count s = size (doc_sections st) + i /\
        sel_model s = select_model (sel_count s).
Proof.
  unfold generate_sections.
  induction l as [|[key info] l IH]; intros st r st' Hnd Hfresh H.
  { rewrite for_each_nil in H. inversion H; subst. exists [].
    split; [now rewrite app_nil_r|]. intros i s Hi. now rewrite lookup_nil in Hi. }
  cbn [map fst] in Hnd, Hfresh. apply NoDup_cons in Hnd. destruct Hnd as [Hkey Hnd].
  rewrite for_each_cons in H.
  assert (Hstep : forall text st1,
    doc_sections st1 = <[key := text]> (doc_sections st) ->
    selections st1 = selections (selected key st) ->
    for_each (generate_section oracle a) l st1 = (r, st') ->
    exists new,
      selections st' = selections st ++ new /\
      forall i s, new !! i = Some s ->
        sel_count s = size (doc_sections st) + i /\
        sel_model s = select_model (sel_count s)).
  { intros text st1 Hds Hsel Hrest.
    destruct (IH st1 r st' Hnd) as (new & En & Hn); [|exact Hrest|].
    { intros k Hk. rewrite Hds, lookup_insert_ne.
      - apply Hfresh. now right.
      - intros ->. apply Hkey. now apply list_elem_of_In. }
    exists (mkSelection key (size (doc_sections st))
                        (select_model (size (doc_sections st))) :: new).
    split.
    - rewrite En, Hsel. cbn. now rewrite <- app_assoc.
    - intros [|i] s Hi.
      + cbn in Hi. inversion Hi; subst. cbn. split; [lia | reflexivity].
      + cbn in Hi. destruct (Hn i s Hi) as [Hc Hm]. split; [|exact Hm].
        rewrite Hc, Hds, map_size_insert_None; [lia|].
        apply Hfresh. now left. }
  destruct (String.eqb key "COVER_PAGE") eqn:Hc.
  { apply String.eqb_eq in Hc. subst key. rewrite generate_section_cover in H.
    apply (IH st r st' Hnd); [|exact H]. intros k Hk. apply Hfresh. now right. }
  destruct (String.eqb key "CONTENTS") eqn:Ht.
  { apply String.eqb_eq in Ht. subst key. rewrite generate_section_contents in H.
    eapply Hstep; [| |exact H]; reflexivity. }
  rewrite (generate_section_other _ _ _ _ _ Hc Ht) in H. cbv zeta in H.
  destruct (oracle _ _ _) as [text|msg].
  - eapply Hstep; [| |exact H]; reflexivity.
  - inversion H; subst.
    exists [mkSelection key (size (doc_sections st))
                        (select_model (size (doc_sections st)))].
    split; [reflexivity|].
    intros [|i] s Hi; cbn in Hi; [|destruct i; discriminate].
    inversion Hi; subst. cbn. split; [lia | reflexivity].
Qed.

(** A completed loop has stored exactly the keys of its catalog other than
    the cover page. *)
Lemma generate_sections_dom (l : list (string * SectionSpec)) :
  forall st st',
    generate_sections oracle a l st = (Ok tt, st') ->
    dom (doc_sections st') = dom (doc_sections st) ∪ list_to_set (generated_keys l).
Proof.
  unfold generate_sections.
  induction l as [|[key info] l IH]; intros st st' H.
  { rewrite for_each_nil in H. inversion H; subst. cbn. set_solver. }
  rewrite for_each_cons in H.
  destruct (String.eqb key "COVER_PAGE") eqn:Hc.
  { assert (Hg : generated_keys ((key, info) :: l) = generated_keys l).
    { unfold generated_keys. cbn [map fst List.filter]. now rewrite Hc. }
    rewrite Hg. apply String.eqb_eq in Hc. subst key.
    rewrite generate_section_cover in H. now apply IH. }
  assert (Hg : generated_keys ((key, info) :: l) = key :: generated_keys l).
  { unfold generated_keys. cbn [map fst List.filter]. now rewrite Hc. }
  rewrite Hg.
  destruct (String.eqb key "CONTENTS") eqn:Ht.
  { apply String.eqb_eq in Ht. subst key. rewrite generate_section_contents in H.
    rewrite (IH _ _ H). cbn. rewrite dom_insert_L. set_solver. }
  rewrite (generate_section_other _ _ _ _ _ Hc Ht) in H. cbv zeta in H.
  destruct (oracle _ _ _) as [text|msg]; [|discriminate].
  rewrite (IH _ _ H). cbn. rewrite dom_insert_L. set_solver.
Qed.

End Selections.

(** ** The generation handler *)

Section OnGenerate.

Variable oracle : Oracle.
Variable a : string.

Lemma generate_documentation_eq (st : State) :
  generate_documentation oracle a st =
  match generate_sections oracle a SECTIONS (with_doc_sections ∅ st) with
  | (Ok _, st1) =>
      match build_document (doc_sections st1) (metadata st1) with
      | Ok doc =>
          (Ok tt,
           with_ui (ui st1 ++ [Success "Documentation generated successfully!"])
                   (with_has_generated true (with_saved_docx (Some doc) st1)))
      | Raise e => (Raise e, st1)
      end
  | (Raise e, st1) => (Raise e, st1)
  end.
Proof.
  cbv beta iota delta [generate_documentation mbind M_bind m_bind modify gets
                       create_docx emit].
  destruct (generate_sections oracle a SECTIONS (with_doc_sections ∅ st))
    as [[u|e] st1]; [|reflexivity].
  destruct (build_document (doc_sections st1) (metadata st1)); reflexivity.
Qed.

Lemma on_generate_eq (st : State) :
  PyStr.truthy a = true ->
  on_generate oracle a st =
  match generate_documentation oracle a st with
  | (Ok _, st') => st'
  | (Raise e, st') =>
      with_ui (ui st' ++ [Error ("Error generating documentation: "
                                 +:+ str_of_exception e)]) st'
  end.
Proof.
  intros Ha. unfold on_generate, try_except. rewrite Ha.
  destruct (generate_documentation oracle a st) as [[u|e] st']; reflexivity.
Qed.

(** What the handler leaves in [doc_sections], [calls] and [selections] is
    what the loop over the catalog left there. *)
Lemma on_generate_loop (st : State) :
  PyStr.truthy a = true ->
  exists r st1,
    generate_sections oracle a SECTIONS (with_doc_sections ∅ st) = (r, st1) /\
    doc_sections (on_generate oracle a st) = doc_sections st1 /\
    calls (on_generate oracle a st) = calls st1 /\
    selections (on_generate oracle a st) = selections st1.
Proof.
  intros Ha. rewrite (on_generate_eq st Ha), generate_documentation_eq.
  destruct (generate_sections oracle a SECTIONS (with_doc_sections ∅ st))
    as [[u|e] st1]; [|now exists (Raise e), st1].
  exists (Ok u), st1.
  destruct (build_document (doc_sections st1) (metadata st1)); now cbn.
Qed.

(** The loop passes the cover page, stores the contents literal, and goes on
    with the nine chapters. *)
Lemma generate_sections_front (st : State) :
  generate_sections oracle a SECTIONS st =
  generate_sections oracle a (skipn 2 SECTIONS)
    (with_doc_sections (<["CONTENTS" := contents_literal]> (doc_sections st))
                       (selected "CONTENTS" st)).
Proof. reflexivity. Qed.

Lemma SECTIONS_NoDup : NoDup (map fst SECTIONS).
Proof. apply (bool_decide_unpack (NoDup (map fst SECTIONS))). vm_compute. exact I. Qed.

End OnGenerate.

(** ** Claims about the generation run *)

(** C4. During a generation run the CONTENTS entry is never sent to a
    backend: whatever the backends answer and whatever the inputs, after the
    run the entry stored under CONTENTS is the fixed literal, and none of the
    backend invocations the run made is for the CONTENTS section. *)
Theorem contents_bypasses_backends (oracle : Oracle) (a : string) (st : State) :
  PyStr.truthy a = true ->
  let st' := on_generate oracle a st in
  doc_sections st' !! "CONTENTS" = Some contents_literal /\
  exists new,
    calls st' = calls st ++ new /\
    Forall (fun c => call_section c <> "CONTENTS") new.
Proof.
  intros Ha. cbv zeta.
  destruct (on_generate_loop oracle a st Ha) as (r & st1 & Hrun & Hds & Hcalls & _).
  rewrite Hds, Hcalls. split.
  - rewrite generate_sections_front in Hrun.
    eapply generate_sections_keep_contents; [exact Hrun|].
    cbn. apply lookup_insert_eq.
  - destruct (generate_sections_rel _ _ _ _ _ _ Hrun) as [_ (new & E & G)].
    exists new. split; [exact E|].
    eapply Forall_impl; [exact G|]. intros c (_ & H & _). exact H.
Qed.

Lemma contents_bypasses_backends_witness :
  PyStr.truthy robot_car_abstract = true /\
  let st' := on_generate (constant_oracle "text") robot_car_abstract robot_car_session in
  doc_sections st' !! "CONTENTS" = Some contents_literal /\
  exists new,
    calls st' = calls robot_car_session ++ new /\
    Forall (fun c => call_section c <> "CONTENTS") new.
Proof.
  split; [reflexivity|].
  apply (contents_bypasses_backends (constant_oracle "text") robot_car_abstract
           robot_car_session).
  reflexivity.
Defined.

Section FirstInvocation.

Variable oracle : Oracle.
Variable a : string.

Lemma generate_sections_selections_extend (l : list (string * SectionSpec)) :
  forall st r st',
    generate_sections oracle a l st = (r, st') ->
    exists sels, selections st' = selections st ++ sels.
Proof.
  unfold generate_sections.
  apply (for_each_steps (generate_section oracle a)
           (fun s s' => exists sels, selections s' = selections s ++ sels) l).
  - intros s. exists []. now rewrite app_nil_r.
  - intros s1 s2 s3 [x1 E1] [x2 E2]. exists (x1 ++ x2).
    now rewrite E2, E1, app_assoc.
  - intros [key info] s q s' _ H.
    destruct (String.eqb key "COVER_PAGE") eqn:Hc.
    { apply String.eqb_eq in Hc. subst key. rewrite generate_section_cover in H.
      inversion H; subst. exists []. now rewrite app_nil_r. }
    destruct (String.eqb key "CONTENTS") eqn:Ht.
    { apply String.eqb_eq in Ht. subst key. rewrite generate_section_contents in H.
      inversion H; subst. eexists. reflexivity. }
    rewrite (generate_section_other _ _ _ _ _ Hc Ht) in H. cbv zeta in H.
    destruct (oracle _ _ _); inversion H; subst; eexists; reflexivity.
Qed.

(** The first two backend calls of a run from the state in which only the
    contents literal is stored. *)
Lemma chapters_first_calls (st2 : State) (r : Exc unit) (st1 : State) :
  size (doc_sections st2) = 1 ->
  doc_sections st2 !! "ABSTRACT" = None ->
  generate_sections oracle a (skipn 2 SECTIONS) st2 = (r, st1) ->
  exists c rest,
    calls st1 = calls st2 ++ c :: rest /\
    call_model c = google_model /\
    call_section c = "ABSTRACT" /\
    match oracle (length (calls st2)) google_model (call_prompt c) with
    | Content _ =>
        exists c2 rest2,
          rest = c2 :: rest2 /\
          call_model c2 = groq_model /\
          call_section c2 = "LITERATURE_SURVEY"
    | Failure _ => rest = []
    end.
Proof.
  intros Hsize Hfresh Hrun.
  assert (E : exists i1 i2,
             skipn 2 SECTIONS =
             ("ABSTRACT", i1) :: ("LITERATURE_SURVEY", i2) :: skipn 4 SECTIONS)
    by (do 2 eexists; reflexivity).
  destruct E as (i1 & i2 & E). rewrite E in Hrun. clear E.
  unfold generate_sections in Hrun. rewrite for_each_cons in Hrun.
  rewrite generate_section_other in Hrun by reflexivity. cbv zeta in Hrun.
  rewrite Hsize in Hrun. change (select_model 1) with google_model in Hrun.
  exists (mkCall google_model "ABSTRACT" (prompt_for a st2 "ABSTRACT" i1)).
  cbn [call_model call_section call_prompt].
  destruct (oracle (length (calls st2)) google_model
                   (prompt_for a st2 "ABSTRACT" i1)) as [text|msg].
  2: { inversion Hrun; subst. exists []. cbn. auto. }
  rewrite for_each_cons in Hrun.
  rewrite generate_section_other in Hrun by reflexivity. cbv zeta in Hrun.
  cbn [doc_sections with_doc_sections with_calls selected with_selections] in Hrun.
  rewrite map_size_insert_None, Hsize in Hrun by exact Hfresh.
  change (select_model 2) with groq_model in Hrun.
  destruct (oracle _ groq_model _) as [text2|msg2].
  - apply generate_sections_rel in Hrun. destruct Hrun as [_ (more & Em & _)].
    cbn [calls with_calls with_doc_sections selected with_selections] in Em.
    eexists. split; [rewrite Em, <- !app_assoc; cbn; reflexivity|].
    split; [reflexivity|]. split; [reflexivity|].
    eexists _, more. split; [reflexivity|]. cbn. auto.
  - inversion Hrun; subst.
    cbn [calls with_calls with_doc_sections selected with_selections].
    eexists. split; [rewrite <- !app_assoc; cbn; reflexivity|].
    split; [reflexivity|]. split; [reflexivity|].
    eexists _, []. split; [reflexivity|]. cbn. auto.
Qed.

End FirstInvocation.

(** C10. In every generation run the first backend invoked is the Google
    model: the model choice for CONTENTS is made while nothing is stored, so it
    is the Groq model, but no invocation is made for CONTENTS; the first
    invocation is for ABSTRACT, with the Google model, and when it answers, the
    second invocation is for LITERATURE_SURVEY, with the Groq model. *)
Theorem first_invocation_is_google (oracle : Oracle) (a : string) (st : State) :
  PyStr.truthy a = true ->
  let st' := on_generate oracle a st in
  (exists sels,
     selections st' = selections st ++ mkSelection "CONTENTS" 0 groq_model :: sels) /\
  exists c rest,
    calls st' = calls st ++ c :: rest /\
    call_model c = google_model /\
    call_section c = "ABSTRACT" /\
    Forall (fun c' => call_section c' <> "CONTENTS") (c :: rest) /\
    match oracle (length (calls st)) google_model (call_prompt c) with
    | Content _ =>
        exists c2 rest2,
          rest = c2 :: rest2 /\
          call_model c2 = groq_model /\
          call_section c2 = "LITERATURE_SURVEY"
    | Failure _ => rest = []
    end.
Proof.
  intros Ha. cbv zeta.
  destruct (on_generate_loop oracle a st Ha) as (r & st1 & Hrun & _ & Hcalls & Hsel).
  rewrite Hcalls, Hsel.
  pose proof (generate_sections_rel _ _ _ _ _ _ Hrun) as [_ (new & En & Gn)].
  rewrite generate_sections_front in Hrun.
  split.
  - destruct (generate_sections_selections_extend _ _ _ _ _ _ Hrun) as [sels Es].
    exists sels. rewrite Es. cbn. now rewrite <- app_assoc.
  - pose proof (fun H1 H2 => chapters_first_calls oracle a _ _ _ H1 H2 Hrun)
      as Hfirst.
    destruct Hfirst as (c & rest & Ec & Hm & Hs & Hnext);
      [reflexivity | reflexivity |].
    cbn [calls with_doc_sections selected with_selections] in Ec, Hnext, En.
    exists c, rest. repeat split; try assumption.
    rewrite Ec in En. apply app_inv_head in En. rewrite En.
    eapply Forall_impl; [exact Gn|]. intros c' (_ & H & _). exact H.
Qed.

Lemma first_invocation_is_google_witness :
  PyStr.truthy robot_car_abstract = true /\
  let oracle := constant_oracle "text" in
  let st := robot_car_session in
  let st' := on_generate oracle robot_car_abstract st in
  (exists sels,
     selections st' = selections st ++ mkSelection "CONTENTS" 0 groq_model :: sels) /\
  exists c rest,
    calls st' = calls st ++ c :: rest /\
    call_model c = google_model /\
    call_section c = "ABSTRACT" /\
    Forall (fun c' => call_section c' <> "CONTENTS") (c :: rest) /\
    match oracle (length (calls st)) google_model (call_prompt c) with
    | Content _ =>
        exists c2 rest2,
          rest = c2 :: rest2 /\
          call_model c2 = groq_model /\
          call_section c2 = "LITERATURE_SURVEY"
    | Failure _ => rest = []
    end.
Proof.
  split; [reflexivity|].
  apply (first_invocation_is_google (constant_oracle "text") robot_car_abstract
           robot_car_session).
  reflexivity.
Defined.

(** ** The assembler *)

Section Assembler.

Lemma count_breaks_app (l1 l2 : list Block) :
  count_breaks (l1 ++ l2) = count_breaks l1 + count_breaks l2.
Proof. unfold count_breaks. now rewrite filter_app, length_app. Qed.

Lemma chapter_headings_app (l1 l2 : list Block) :
  chapter_headings (l1 ++ l2) = chapter_headings l1 ++ chapter_headings l2.
Proof. unfold chapter_headings. apply flat_map_app. Qed.

Lemma content_blocks_no_break (new : list Block) :
  Forall content_block new -> count_breaks new = 0.
Proof.
  induction 1 as [|b l Hb _ IH]; [reflexivity|].
  change (b :: l) with ([b] ++ l). rewrite count_breaks_app, IH.
  destruct b as [t n [[]|]| |]; cbn in Hb; try contradiction; reflexivity.
Qed.

Lemma content_blocks_no_chapter (new : list Block) :
  Forall content_block new -> chapter_headings new = [].
Proof.
  induction 1 as [|b l Hb _ IH]; [reflexivity|].
  change (b :: l) with ([b] ++ l). rewrite chapter_headings_app, IH.
  destruct b as [t n [[]|]| |]; cbn in Hb; try contradiction;
    try reflexivity; destruct n as [|[|n]]; reflexivity.
Qed.

Lemma add_heading_ok (text : string) (level : nat) (al : option Alignment)
    (doc doc' : Document) :
  add_heading text level al doc = Ok doc' ->
  doc' = append_block (Heading text level al) doc.
Proof.
  unfold add_heading. destruct (level <=? 9)%nat; [|discriminate].
  now inversion 1.
Qed.

Lemma add_heading_raise (text : string) (level : nat) (al : option Alignment)
    (doc : Document) (e : Exception) :
  add_heading text level al doc = Raise e -> is_value_error e.
Proof.
  unfold add_heading. destruct (level <=? 9)%nat; [discriminate|].
  inversion 1. exact I.
Qed.

Lemma render_paragraph_ok (para : string) (doc doc' : Document) :
  render_paragraph para doc = Ok doc' ->
  exists new, body doc' = body doc ++ new /\ Forall content_block new.
Proof.
  unfold render_paragraph.
  destruct (PyStr.truthy (PyStr.strip para)).
  - destruct (PyStr.startswith_hash (PyStr.strip para)).
    + intros H. apply add_heading_ok in H. subst doc'.
      eexists. split; [reflexivity|]. repeat constructor.
    + inversion 1; subst. eexists. split; [reflexivity|]. repeat constructor.
  - inversion 1; subst. exists []. split; [now rewrite app_nil_r | constructor].
Qed.

Lemma render_paragraph_raise (para : string) (doc : Document) (e : Exception) :
  render_paragraph para doc = Raise e -> is_value_error e.
Proof.
  unfold render_paragraph.
  destruct (PyStr.truthy (PyStr.strip para)); [|discriminate].
  destruct (PyStr.startswith_hash (PyStr.strip para)); [|discriminate].
  apply add_heading_raise.
Qed.

Lemma render_paragraphs_ok (paras : list string) :
  forall doc doc',
    render_paragraphs paras doc = Ok doc' ->
    exists new, body doc' = body doc ++ new /\ Forall content_block new.
Proof.
  induction paras as [|para rest IH]; intros doc doc' H.
  - inversion H; subst. exists []. split; [now rewrite app_nil_r | constructor].
  - cbn [render_paragraphs] in H.
    destruct (render_paragraph para doc) as [d1|e] eqn:E1; [|discriminate].
    apply render_paragraph_ok in E1. destruct E1 as (n1 & B1 & F1).
    apply IH in H. destruct H as (n2 & B2 & F2).
    exists (n1 ++ n2). split.
    + now rewrite B2, B1, app_assoc.
    + apply Forall_app. now split.
Qed.

Lemma render_paragraphs_raise (paras : list string) :
  forall doc e, render_paragraphs paras doc = Raise e -> is_value_error e.
Proof.
  induction paras as [|para rest IH]; intros doc e H; [discriminate|].
  cbn [render_paragraphs] in H.
  destruct (render_paragraph para doc) as [d1|e1] eqn:E1.
  - eapply IH. exact H.
  - inversion H; subst. eapply render_paragraph_raise. exact E1.
Qed.

(** A chapter is its centered level-1 heading, the blocks of its stored
    text (none when nothing is stored), and a page break. *)
Lemma render_section_ok (ds : gmap string string) (key : string)
    (info : SectionSpec) (doc doc' : Document) :
  render_section ds (key, info) doc = Ok doc' ->
  if is_front_matter key then doc' = doc
  else exists new,
      body doc' = body doc ++ Heading (title info) 1 (Some CENTER) :: new ++ [PageBreak] /\
      Forall content_block new /\
      (ds !! key = None -> new = []).
Proof.
  unfold render_section, is_front_matter.
  destruct (String.eqb key "COVER_PAGE" || String.eqb key "CONTENTS").
  { now inversion 1. }
  cbn [add_heading Nat.leb mbind Exc_bind exc_bind].
  destruct (ds !! key) as [content|].
  - destruct (render_paragraphs _ _) as [d1|e] eqn:E1; [|discriminate].
    inversion 1; subst. apply render_paragraphs_ok in E1.
    destruct E1 as (new & B & F). exists new. split; [|split; [exact F | discriminate]].
    cbn. rewrite B. cbn. now rewrite <- !app_assoc.
  - inversion 1; subst. exists []. split; [|split; [constructor | reflexivity]].
    cbn. now rewrite <- !app_assoc.
Qed.

Lemma render_section_raise (ds : gmap string string) (entry : string * SectionSpec)
    (doc : Document) (e : Exception) :
  render_section ds entry doc = Raise e -> is_value_error e.
Proof.
  destruct entry as [key info]. unfold render_section.
  destruct (String.eqb key "COVER_PAGE" || String.eqb key "CONTENTS"); [discriminate|].
  cbn [add_heading Nat.leb mbind Exc_bind exc_bind].
  destruct (ds !! key) as [content|]; [|discriminate].
  destruct (render_paragraphs _ _) as [d1|e1] eqn:E1; [discriminate|].
  inversion 1; subst. eapply render_paragraphs_raise. exact E1.
Qed.

Lemma chapters_cons (key : string) (info : SectionSpec)
    (l : list (string * SectionSpec)) :
  chapters ((key, info) :: l) =
  if is_front_matter key then chapters l else (key, info) :: chapters l.
Proof. unfold chapters. cbn. now destruct (is_front_matter key). Qed.

Lemma render_sections_ok (ds : gmap string string)
    (l : list (string * SectionSpec)) :
  forall doc doc',
    render_sections ds l doc = Ok doc' ->
    exists new,
      body doc' = body doc ++ new /\
      chapter_headings new = map (fun entry => title (snd entry)) (chapters l) /\
      count_breaks new = length (chapters l).
Proof.
  induction l as [|[key info] l IH]; intros doc doc' H.
  - inversion H; subst. exists []. now rewrite app_nil_r.
  - cbn [render_sections] in H.
    destruct (render_section ds (key, info) doc) as [d1|e] eqn:E1; [|discriminate].
    cbn [mbind Exc_bind exc_bind] in H.
    apply IH in H. destruct H as (n2 & B2 & C2 & P2).
    apply render_section_ok in E1. rewrite chapters_cons.
    destruct (is_front_matter key).
    + subst d1. exists n2. auto.
    + destruct E1 as (new & B1 & F1 & _).
      exists ([Heading (title info) 1 (Some CENTER)] ++ new ++ [PageBreak] ++ n2).
      split; [|split].
      * rewrite B2, B1. rewrite <- app_assoc. f_equal. cbn. f_equal.
        now rewrite <- app_assoc.
      * rewrite !chapter_headings_app, (content_blocks_no_chapter new F1), C2.
        reflexivity.
      * rewrite !count_breaks_app, (content_blocks_no_break new F1), P2.
        reflexivity.
Qed.

Lemma render_sections_raise (ds : gmap string string)
    (l : list (string * SectionSpec)) :
  forall doc e, render_sections ds l doc = Raise e -> is_value_error e.
Proof.
  induction l as [|entry l IH]; intros doc e H; [discriminate|].
  cbn [render_sections] in H.
  destruct (render_section ds entry doc) as [d1|e1] eqn:E1.
  - eapply IH. exact H.
  - inversion H; subst. eapply render_section_raise. exact E1.
Qed.

Lemma add_metadata_fields_body (md : gmap string string) (fields : list string) :
  forall doc,
    exists new,
      body (add_metadata_fields md fields doc) = body doc ++ new /\
      Forall content_block new.
Proof.
  induction fields as [|field rest IH]; intros doc.
  - exists []. split; [now rewrite app_nil_r | constructor].
  - cbn [add_metadata_fields].
    destruct (md !! field) as [v|]; [destruct (PyStr.truthy v)|]; try apply IH.
    destruct (IH (add_paragraph [mkRun (PyStr.upper v) false (Some 12)]
                                (Some CENTER) None doc)) as (new & B & F).
    eexists. split; [rewrite B; cbn; rewrite <- app_assoc; reflexivity|].
    constructor; [exact I | exact F].
Qed.

(** A document that is built has the nine chapter headings, in catalog
    order, and eleven page breaks: after the cover, after the contents
    placeholder and after each chapter. *)
Lemma build_document_ok (ds md : gmap string string) (doc : Document) :
  build_document ds md = Ok doc ->
  chapter_headings (body doc) =
    map (fun entry => title (snd entry)) (chapters SECTIONS) /\
  count_breaks (body doc) = 11.
Proof.
  unfold build_document.
  cbn [add_heading Nat.leb mbind Exc_bind exc_bind add_placeholder_toc].
  destruct (render_sections ds SECTIONS _) as [d1|e] eqn:E; [|discriminate].
  inversion 1; subst. cbn [body set_footer].
  apply render_sections_ok in E. destruct E as (new & B & C & P).
  rewrite B. cbn [body append_block add_paragraph add_page_break].
  destruct (add_metadata_fields_body md ["author"; "institution"; "date"]
              (append_block
                 (Heading (PyStr.upper (default "PROJECT DOCUMENTATION" (md !! "title")))
                          0 (Some CENTER)) new_document))
    as (meta & Bm & Fm).
  rewrite Bm. cbn [body append_block new_document].
  rewrite !chapter_headings_app, !count_breaks_app, C, P.
  rewrite (content_blocks_no_chapter meta Fm), (content_blocks_no_break meta Fm).
  split; reflexivity.
Qed.

Lemma build_document_raise (ds md : gmap string string) (e : Exception) :
  build_document ds md = Raise e -> is_value_error e.
Proof.
  unfold build_document.
  cbn [add_heading Nat.leb mbind Exc_bind exc_bind add_placeholder_toc].
  destruct (render_sections ds SECTIONS _) as [d1|e1] eqn:E; [discriminate|].
  inversion 1; subst. eapply render_sections_raise. exact E.
Qed.

Lemma render_sections_empty (l : list (string * SectionSpec)) :
  forall doc, exists doc', render_sections ∅ l doc = Ok doc'.
Proof.
  induction l as [|[key info] l IH]; intros doc.
  - eexists. reflexivity.
  - cbn [render_sections]. unfold render_section.
    destruct (String.eqb key "COVER_PAGE" || String.eqb key "CONTENTS").
    + cbn [mbind Exc_bind exc_bind]. apply IH.
    + cbn [add_heading Nat.leb mbind Exc_bind exc_bind].
      rewrite lookup_empty. cbn [mbind Exc_bind exc_bind]. apply IH.
Qed.

(** The document is built as soon as the loop over the catalog completes. *)
Lemma build_document_of_sections (ds md : gmap string string) :
  (forall d, exists d', render_sections ds SECTIONS d = Ok d') ->
  exists doc, build_document ds md = Ok doc.
Proof.
  intros H. unfold build_document.
  cbn [add_heading Nat.leb mbind Exc_bind exc_bind add_placeholder_toc].
  match goal with
  | |- context [render_sections ds SECTIONS ?d] =>
      destruct (H d) as [d' E]; rewrite E
  end.
  eexists. reflexivity.
Qed.

(** With nothing stored the document is built: a missing entry raises
    nothing. *)
Lemma build_document_empty (md : gmap string string) :
  exists doc, build_document ∅ md = Ok doc.
Proof.
  apply build_document_of_sections. apply render_sections_empty.
Qed.

Lemma page_breaks_count (doc : Document) : page_breaks doc = count_breaks (body doc).
Proof. reflexivity. Qed.

End Assembler.

(** ** Claims about the prompt and the rejected request *)

(** C9. The prompt is a function of the section, the project type, the
    abstract, the three optional context fields and the guidance alone: it
    contains the section title, the abstract and each optional field
    verbatim, and in a generation run, whatever the backends answer, every
    backend call carries exactly the prompt built from the call's catalog
    entry and the session's inputs. *)
Theorem prompt_builder_verbatim :
  (forall (info : SectionSpec)
          (project_type abstract technologies objectives components guidance : string),
     let prompt := build_prompt info project_type abstract technologies objectives
                                components guidance in
     PyStr.contains prompt (title info) /\
     PyStr.contains prompt abstract /\
     PyStr.contains prompt technologies /\
     PyStr.contains prompt objectives /\
     PyStr.contains prompt components) /\
  (forall (oracle : Oracle) (abstract : string) (st : State),
     let st' := snd (generate_sections oracle abstract SECTIONS st) in
     exists new,
       calls st' = calls st ++ new /\
       Forall (fun c =>
                 exists info,
                   In (call_section c, info) SECTIONS /\
                   call_prompt c =
                     build_prompt info
                       (default "" (metadata st !! "project_type"))
                       abstract
                       (default "" (widgets st !! "technologies"))
                       (default "" (widgets st !! "objectives"))
                       (default "" (widgets st !! "components"))
                       (guidance_for (call_section c))) new).
Proof.
  split.
  - intros. apply build_prompt_contains.
  - intros oracle abstract st. cbv zeta.
    destruct (generate_sections oracle abstract SECTIONS st) as [r st'] eqn:Hrun.
    apply generate_sections_rel in Hrun. destruct Hrun as [_ (new & E & G)].
    exists new. split; [exact E|].
    eapply Forall_impl; [exact G|].
    intros c (_ & _ & info & Hin & Hp). exists info. split; [exact Hin | exact Hp].
Qed.

(** C8. With an empty abstract the generation handler only warns: no backend
    is invoked, no model is chosen, and the stored sections, the feedback
    history, the metadata, the widget values, the generated flag and the saved
    file are what they were. *)
Theorem empty_abstract_rejected (oracle : Oracle) (st : State) :
  let st' := on_generate oracle "" st in
  ui st' = ui st ++ [Warning "Please enter a project abstract."] /\
  calls st' = calls st /\
  selections st' = selections st /\
  doc_sections st' = doc_sections st /\
  feedback_history st' = feedback_history st /\
  metadata st' = metadata st /\
  widgets st' = widgets st /\
  has_generated st' = has_generated st /\
  saved_docx st' = saved_docx st.
Proof. cbv zeta. repeat split. Qed.

(** ** Claims about failure and completion of a run *)

(** The state a run is left in when its body raises a backend error: the
    catalog splits at the entry whose invocation failed, the failing call is
    the last one made, and the stored sections are those stored by the entries
    processed before it. *)
Lemma generation_backend_error_state (oracle : Oracle) (a : string) (st : State)
    (msg : string) (st_f : State) :
  PyStr.truthy a = true ->
  generate_documentation oracle a st = (Raise (BackendError msg), st_f) ->
  let st' := on_generate oracle a st in
  ui st' = ui st ++ [Error ("Error generating documentation: " +:+ msg)] /\
  has_generated st' = has_generated st /\
  saved_docx st' = saved_docx st /\
  feedback_history st' = feedback_history st /\
  exists done key info rest st_d model prompt,
    SECTIONS = done ++ (key, info) :: rest /\
    generate_sections oracle a done (with_doc_sections ∅ st) = (Ok tt, st_d) /\
    oracle (length (calls st_d)) model prompt = Failure msg /\
    calls st' = calls st_d ++ [mkCall model key prompt] /\
    doc_sections st' = doc_sections st_d.
Proof.
  intros Ha Hbody. cbv zeta. rewrite (on_generate_eq oracle a st Ha), Hbody.
  rewrite generate_documentation_eq in Hbody.
  destruct (generate_sections oracle a SECTIONS (with_doc_sections ∅ st))
    as [[u|e] st1] eqn:Hrun.
  { destruct (build_document (doc_sections st1) (metadata st1)) eqn:Hb;
      [discriminate|].
    inversion Hbody; subst. apply build_document_raise in Hb. contradiction. }
  inversion Hbody; subst e st1. clear Hbody.
  unfold generate_sections in Hrun.
  apply for_each_raise in Hrun.
  destruct Hrun as (done & [key info] & rest & st_d & Hsplit & Hdone & Hx).
  pose proof (generate_sections_rel oracle a done _ _ _ Hdone) as [Fd _].
  destruct Fd as (_ & _ & Ffh & Fhg & Fsd & Fui).
  cbn [feedback_history has_generated saved_docx ui with_doc_sections] in Ffh, Fhg, Fsd, Fui.
  destruct (String.eqb key "COVER_PAGE") eqn:Hc.
  { apply String.eqb_eq in Hc. subst key. rewrite generate_section_cover in Hx.
    discriminate. }
  destruct (String.eqb key "CONTENTS") eqn:Ht.
  { apply String.eqb_eq in Ht. subst key. rewrite generate_section_contents in Hx.
    discriminate. }
  rewrite (generate_section_other _ _ _ _ _ Hc Ht) in Hx. cbv zeta in Hx.
  destruct (oracle (length (calls st_d)) (select_model (size (doc_sections st_d)))
                   (prompt_for a st_d key info)) as [text|msg'] eqn:Ho;
    [discriminate|].
  inversion Hx; subst msg' st_f. clear Hx.
  cbn [ui has_generated saved_docx feedback_history calls doc_sections
       with_ui with_calls selected with_selections str_of_exception].
  rewrite Fui, Fhg, Fsd, Ffh. repeat split.
  exists done, key, info, rest, st_d,
    (select_model (size (doc_sections st_d))), (prompt_for a st_d key info).
  repeat split; assumption.
Qed.

(** C3 as stated fails: after a full run with the constant
    backend, ten sections are stored and the saved document has eleven page
    breaks, not twelve. *)
Lemma full_run_not_twelve_page_breaks :
  let st' := on_generate (constant_oracle "text") robot_car_abstract robot_car_session in
  size (doc_sections st') = 10 /\
  option_map page_breaks (saved_docx st') = Some 11 /\
  option_map page_breaks (saved_docx st') <> Some 12.
Proof. vm_compute. repeat split. discriminate. Qed.

(** C3, amended. After a generation run that completes, exactly ten sections
    are stored: the catalog keys other than the cover page, CONTENTS holding
    the fixed literal; and the saved document has exactly eleven page breaks
    (after the cover, after the contents placeholder, after each of the nine
    chapters). *)
Theorem full_run_ten_sections_eleven_breaks (oracle : Oracle) (a : string)
    (st : State) :
  PyStr.truthy a = true ->
  fst (generate_documentation oracle a st) = Ok tt ->
  let st' := on_generate oracle a st in
  size (doc_sections st') = 10 /\
  (forall k, is_Some (doc_sections st' !! k) <-> In k (generated_keys SECTIONS)) /\
  doc_sections st' !! "CONTENTS" = Some contents_literal /\
  doc_sections st' !! "COVER_PAGE" = None /\
  exists doc, saved_docx st' = Some doc /\ page_breaks doc = 11.
Proof.
  intros Ha Hok. cbv zeta.
  pose proof (contents_kept := generate_sections_keep_contents oracle a).
  rewrite (on_generate_eq oracle a st Ha).
  rewrite generate_documentation_eq in Hok |- *.
  destruct (generate_sections oracle a SECTIONS (with_doc_sections ∅ st))
    as [[[]|e] st1] eqn:Hrun; [|discriminate].
  destruct (build_document (doc_sections st1) (metadata st1)) as [doc|e] eqn:Hb;
    [|discriminate].
  cbn [doc_sections saved_docx with_ui with_has_generated with_saved_docx].
  pose proof (generate_sections_dom oracle a SECTIONS _ _ Hrun) as Hdom.
  cbn [doc_sections with_doc_sections] in Hdom.
  rewrite dom_empty_L, (left_id_L ∅ (∪)) in Hdom.
  assert (Hmem : forall k, is_Some (doc_sections st1 !! k) <->
                           In k (generated_keys SECTIONS)).
  { intros k. rewrite <- elem_of_dom, Hdom, elem_of_list_to_set.
    apply list_elem_of_In. }
  split; [|split; [exact Hmem | split; [|split]]].
  - rewrite <- size_dom, Hdom. vm_compute. reflexivity.
  - rewrite generate_sections_front in Hrun.
    eapply contents_kept; [exact Hrun|]. cbn. apply lookup_insert_eq.
  - apply eq_None_not_Some. rewrite Hmem. vm_compute. intuition discriminate.
  - exists doc. split; [reflexivity|].
    rewrite page_breaks_count. apply (build_document_ok _ _ _ Hb).
Qed.

Lemma full_run_ten_sections_eleven_breaks_witness :
  let oracle := constant_oracle "text" in
  let a := robot_car_abstract in
  let st := robot_car_session in
  PyStr.truthy a = true /\
  fst (generate_documentation oracle a st) = Ok tt /\
  let st' := on_generate oracle a st in
  size (doc_sections st') = 10 /\
  (forall k, is_Some (doc_sections st' !! k) <-> In k (generated_keys SECTIONS)) /\
  doc_sections st' !! "CONTENTS" = Some contents_literal /\
  doc_sections st' !! "COVER_PAGE" = None /\
  exists doc, saved_docx st' = Some doc /\ page_breaks doc = 11.
Proof.
  cbv zeta. split; [reflexivity|]. split; [vm_compute; reflexivity|].
  apply (full_run_ten_sections_eleven_breaks (constant_oracle "text")
           robot_car_abstract robot_car_session).
  - reflexivity.
  - vm_compute. reflexivity.
Defined.

(** ** Claim about feedback *)

Section Feedback.

Variable oracle : Oracle.
Variable now : nat.
Variables selected_section feedback : string.

(** The body of the feedback handler completes exactly when the section is
    stored and in the catalog, the backend answers and the document is
    built; the state it leaves is then this one. *)
Lemma revise_section_ok (st st' : State) :
  revise_section oracle now selected_section feedback st = (Ok tt, st') ->
  exists current info content doc,
    doc_sections st !! selected_section = Some current /\
    lookup_section selected_section SECTIONS = Some info /\
    oracle (length (calls st))
           (select_feedback_model (length (feedback_history st)))
           (build_feedback_prompt info current feedback) = Content content /\
    build_document (<[selected_section := content]> (doc_sections st))
                   (metadata st) = Ok doc /\
    st' = mkState (<[selected_section := content]> (doc_sections st))
            (metadata st)
            (feedback_history st ++ [mkFeedback (title info) feedback now])
            (has_generated st) (widgets st) (Some doc)
            (ui st ++ [Success "Section updated successfully!"])
            (calls st ++
               [mkCall (select_feedback_model (length (feedback_history st)))
                       selected_section
                       (build_feedback_prompt info current feedback)])
            (selections st).
Proof.
  cbv beta iota zeta delta [revise_section mbind M_bind m_bind modify gets
                            create_docx emit invoke store_section
                            lookup_or_raise mret M_ret m_ret raise].
  destruct (doc_sections st !! selected_section) as [current|];
    [|intros H; inversion H].
  destruct (lookup_section selected_section SECTIONS) as [info|];
    [|intros H; inversion H].
  destruct (oracle _ _ _) as [content|msg] eqn:Ho; [|intros H; inversion H].
  cbn [doc_sections metadata with_doc_sections with_calls].
  destruct (build_document _ _) as [doc|e] eqn:Hb; [|intros H; inversion H].
  intros H. inversion H; subst st'. clear H.
  exists current, info, content, doc. repeat split; assumption.
Qed.

End Feedback.

(** C7. A feedback submission that succeeds replaces the stored text of the
    selected section by the backend's answer and leaves every other stored
    entry as it was, and it appends exactly one feedback record, carrying the
    section's title and the feedback text. *)
Theorem feedback_replaces_one_section (oracle : Oracle) (now : nat)
    (selected_section feedback : string) (st : State) :
  fst (revise_section oracle now selected_section feedback st) = Ok tt ->
  let st' := on_submit_feedback oracle now selected_section feedback st in
  exists info content,
    lookup_section selected_section SECTIONS = Some info /\
    doc_sections st' = <[selected_section := content]> (doc_sections st) /\
    (forall k, k <> selected_section ->
               doc_sections st' !! k = doc_sections st !! k) /\
    feedback_history st' =
      feedback_history st ++ [mkFeedback (title info) feedback now] /\
    exists c, calls st' = calls st ++ [c] /\
              call_section c = selected_section /\
              oracle (length (calls st)) (call_model c) (call_prompt c)
                = Content content.
Proof.
  intros Hok. cbv zeta. unfold on_submit_feedback, try_except.
  destruct (revise_section oracle now selected_section feedback st)
    as [[[]|e] st'] eqn:Hbody; [|discriminate].
  apply revise_section_ok in Hbody.
  destruct Hbody as (current & info & content & doc & _ & Hinfo & Ho & _ & ->).
  exists info, content. cbn [doc_sections feedback_history calls].
  split; [exact Hinfo|]. split; [reflexivity|]. split.
  - intros k Hk. now rewrite lookup_insert_ne.
  - split; [reflexivity|]. eexists. split; [reflexivity|].
    split; [reflexivity | exact Ho].
Qed.

Lemma feedback_replaces_one_section_witness :
  let oracle := constant_oracle "revised" in
  let st := generated_session in
  fst (revise_section oracle 7 "CHAPTER_3" "more detail" st) = Ok tt /\
  let st' := on_submit_feedback oracle 7 "CHAPTER_3" "more detail" st in
  exists info content,
    lookup_section "CHAPTER_3" SECTIONS = Some info /\
    doc_sections st' = <["CHAPTER_3" := content]> (doc_sections st) /\
    (forall k, k <> "CHAPTER_3" ->
               doc_sections st' !! k = doc_sections st !! k) /\
    feedback_history st' =
      feedback_history st ++ [mkFeedback (title info) "more detail" 7] /\
    exists c, calls st' = calls st ++ [c] /\
              call_section c = "CHAPTER_3" /\
              oracle (length (calls st)) (call_model c) (call_prompt c)
                = Content content.
Proof.
  cbv zeta. split; [vm_compute; reflexivity|].
  apply (feedback_replaces_one_section (constant_oracle "revised") 7
           "CHAPTER_3" "more detail" generated_session).
  vm_compute. reflexivity.
Defined.

(** ** Sub-headings *)

Lemma rstrip_hash_markers (n : nat) : PyStr.rstrip_by PyStr.is_hash (markers n) = "".
Proof.
  induction n as [|n IH]; [reflexivity|].
  cbn [markers PyStr.rstrip_by]. rewrite IH. reflexivity.
Qed.

Lemma lstrip_hash_markers (n : nat) : PyStr.lstrip_by PyStr.is_hash (markers n) = "".
Proof. induction n as [|n IH]; [reflexivity | exact IH]. Qed.

(** Stripping the markers from a word made of markers leaves nothing, so
    the level computed from a marker run is 0 whatever its length. *)
Lemma marker_run_level (n : nat) :
  String.length (PyStr.strip_hash (markers n)) = 0.
Proof.
  unfold PyStr.strip_hash, PyStr.strip_by.
  now rewrite lstrip_hash_markers.
Qed.

(** C2. What the assembler does with the two paragraphs of the claim: the
    level computed for "## Example Heading" is 0, not the length 2 of its
    marker run, and the paragraph becomes a level-1 heading, left-aligned,
    with the text upper-cased; "Plain text." becomes a justified paragraph
    with its text unchanged. *)
Theorem example_heading_rendered_at_level_one (doc : Document) :
  String.length (PyStr.strip_hash (hd "" (PyStr.split "## Example Heading"))) = 0 /\
  render_paragraph "## Example Heading" doc =
    Ok (append_block (Heading "EXAMPLE HEADING" 1 (Some LEFT)) doc) /\
  render_paragraph "Plain text." doc =
    Ok (append_block (Paragraph [plain_run "Plain text."] (Some JUSTIFY)
                                (Some ONE_POINT_FIVE)) doc).
Proof. repeat split. Qed.

(** C1. What [create_docx] does when the stored abstract is the one
    paragraph "#Introduction": the level is the length of the word without
    its marker, 12, the heading is asked for at level 13, python-docx raises,
    and no document is saved. With "## Example Heading" stored instead, the
    document is built and the ABSTRACT chapter holds two level-1 headings. *)
Theorem create_docx_raises_on_marker_word (st : State) :
  create_docx (metadata st)
      (with_doc_sections {[ "ABSTRACT" := "#Introduction" ]} st) =
    (Raise (ValueError "level must be in range 0-9, got 13"),
     with_doc_sections {[ "ABSTRACT" := "#Introduction" ]} st) /\
  exists doc,
    build_document {[ "ABSTRACT" := "## Example Heading" ]} ∅ = Ok doc /\
    level1_headings (body doc) =
      [ ("TABLE OF CONTENTS", None);
        ("ABSTRACT", Some CENTER);
        ("EXAMPLE HEADING", Some LEFT);
        ("LITERATURE SURVEY", Some CENTER);
        ("CHAPTER 1: INTRODUCTION", Some CENTER);
        ("CHAPTER 2: WORKING AND BLOCK DIAGRAM", Some CENTER);
        ("CHAPTER 3: HARDWARE COMPONENTS DESCRIPTION", Some CENTER);
        ("CHAPTER 4: SOFTWARE DESCRIPTION", Some CENTER);
        ("CHAPTER 5: ADVANTAGES & APPLICATIONS", Some CENTER);
        ("CHAPTER 6: FUTURE SCOPE & CONCLUSION", Some CENTER);
        ("REFERENCES", Some CENTER) ].
Proof.
  split.
  - unfold create_docx. cbn [doc_sections with_doc_sections].
    assert (E : build_document {[ "ABSTRACT" := "#Introduction" ]} (metadata st) =
                Raise (ValueError "level must be in range 0-9, got 13"))
      by (vm_compute; reflexivity).
    rewrite E. reflexivity.
  - eexists. split; vm_compute; reflexivity.
Qed.

(** * Further properties of the assembler *)

Section AssemblerOutcome.

Lemma render_paragraph_is_ok (para : string) (doc : Document) :
  is_ok (render_paragraph para doc) = paragraph_fits para.
Proof.
  unfold render_paragraph, paragraph_fits, add_heading.
  destruct (PyStr.truthy (PyStr.strip para)); [|reflexivity].
  destruct (PyStr.startswith_hash (PyStr.strip para)); [|reflexivity].
  cbn [andb negb orb].
  destruct (String.length (PyStr.strip_hash (hd "" (PyStr.split para))) + 1 <=? 9)%nat;
    reflexivity.
Qed.

Lemma render_paragraphs_is_ok (paras : list string) :
  forall doc, is_ok (render_paragraphs paras doc) = forallb paragraph_fits paras.
Proof.
  induction paras as [|para rest IH]; intros doc; [reflexivity|].
  cbn [render_paragraphs forallb].
  rewrite <- (render_paragraph_is_ok para doc).
  destruct (render_paragraph para doc) as [d1|e]; cbn; [apply IH | reflexivity].
Qed.

Lemma render_section_is_ok (ds : gmap string string) (key : string)
    (info : SectionSpec) (doc : Document) :
  is_ok (render_section ds (key, info) doc) =
  if is_front_matter key then true
  else match ds !! key with
       | Some content => content_fits content
       | None => true
       end.
Proof.
  unfold render_section, is_front_matter.
  destruct (String.eqb key "COVER_PAGE" || String.eqb key "CONTENTS"); [reflexivity|].
  cbn [add_heading Nat.leb mbind Exc_bind exc_bind].
  destruct (ds !! key) as [content|]; [|reflexivity].
  unfold content_fits. rewrite <- (render_paragraphs_is_ok _
    (append_block (Heading (title info) 1 (Some CENTER)) doc)).
  destruct (render_paragraphs _ _); reflexivity.
Qed.

Lemma render_sections_is_ok (ds : gmap string string)
    (l : list (string * SectionSpec)) :
  forall doc, is_ok (render_sections ds l doc) = sections_fit ds l.
Proof.
  unfold sections_fit.
  induction l as [|[key info] l IH]; intros doc; [reflexivity|].
  cbn [render_sections]. rewrite chapters_cons.
  pose proof (render_section_is_ok ds key info doc) as H.
  destruct (render_section ds (key, info) doc) as [d1|e];
    cbn [mbind Exc_bind exc_bind is_ok] in *.
  - rewrite IH. destruct (is_front_matter key); [reflexivity|].
    cbn [forallb fst]. now rewrite <- H.
  - destruct (is_front_matter key); [discriminate|].
    cbn [forallb fst]. now rewrite <- H.
Qed.

Lemma build_document_is_ok (ds md : gmap string string) :
  is_ok (build_document ds md) = sections_fit ds SECTIONS.
Proof.
  unfold build_document.
  cbn [add_heading Nat.leb mbind Exc_bind exc_bind add_placeholder_toc].
  match goal with
  | |- context [render_sections ds SECTIONS ?d] =>
      rewrite <- (render_sections_is_ok ds SECTIONS d);
      destruct (render_sections ds SECTIONS d)
  end; reflexivity.
Qed.

(** With no text stored for any chapter, the loop over the catalog appends
    one empty chapter per chapter entry. *)
Lemma render_sections_missing (ds : gmap string string)
    (l : list (string * SectionSpec)) :
  (forall key info, In (key, info) (chapters l) -> ds !! key = None) ->
  forall doc, exists doc',
    render_sections ds l doc = Ok doc' /\
    body doc' = body doc ++ flat_map empty_chapter (chapters l).
Proof.
  induction l as [|[key info] l IH]; intros Hmiss doc.
  - exists doc. split; [reflexivity | now rewrite app_nil_r].
  - cbn [render_sections]. unfold render_section.
    rewrite chapters_cons in Hmiss |- *. unfold is_front_matter in *.
    destruct (String.eqb key "COVER_PAGE" || String.eqb key "CONTENTS").
    + cbn [mbind Exc_bind exc_bind]. apply IH. exact Hmiss.
    + cbn [add_heading Nat.leb mbind Exc_bind exc_bind].
      rewrite (Hmiss key info) by now left.
      cbn [mbind Exc_bind exc_bind].
      destruct (IH (fun k i H => Hmiss k i (or_intror H))
                   (add_page_break (append_block (Heading (title info) 1 (Some CENTER)) doc)))
        as (doc' & E & B).
      exists doc'. split; [exact E|].
      rewrite B. cbn. now rewrite <- !app_assoc.
Qed.

Lemma main_metadata_lookups (i : Inputs) :
  main_metadata i !! "title" = Some (in_title i) /\
  main_metadata i !! "author" = Some (in_author i) /\
  main_metadata i !! "institution" = Some (in_institution i) /\
  main_metadata i !! "date" = Some (in_date i) /\
  main_metadata i !! "project_type" = Some (in_project_type i).
Proof. repeat split; vm_compute; reflexivity. Qed.

End AssemblerOutcome.

Lemma add_metadata_fields_main (i : Inputs) (doc : Document) :
  body (add_metadata_fields (main_metadata i) ["author"; "institution"; "date"] doc) =
  body doc ++ cover_lines [in_author i; in_institution i; in_date i].
Proof.
  destruct (main_metadata_lookups i) as (_ & Ha & Hi & Hd & _).
  cbn [add_metadata_fields]. rewrite Ha, Hi, Hd.
  unfold cover_lines. cbn [flat_map].
  destruct (PyStr.truthy (in_author i)), (PyStr.truthy (in_institution i)),
           (PyStr.truthy (in_date i));
    cbn [body append_block add_paragraph app];
    rewrite <- ?app_assoc; cbn [app]; rewrite ?app_nil_r; reflexivity.
Qed.

(** X1. On plain text (metadata values and stored sections), [create_docx]
    succeeds whenever every stored marker paragraph asks for a heading level
    of at most 9: it saves a document whose centered level-1 headings are the
    nine chapter titles in catalog order and which has eleven page breaks, and
    it changes nothing else in the session. *)
Theorem create_docx_saves_nine_chapters (md : gmap string string) (st : State) :
  plain_values md = true ->
  plain_values (doc_sections st) = true ->
  sections_fit (doc_sections st) SECTIONS = true ->
  exists doc,
    create_docx md st = (Ok doc_path, with_saved_docx (Some doc) st) /\
    chapter_headings (body doc) =
      map (fun entry => title (snd entry)) (chapters SECTIONS) /\
    length (chapter_headings (body doc)) = 9 /\
    page_breaks doc = 11.
Proof.
  intros _ _ Hfit. unfold create_docx.
  pose proof (build_document_is_ok (doc_sections st) md) as Hok.
  rewrite Hfit in Hok.
  destruct (build_document (doc_sections st) md) as [doc|e] eqn:Hb; [|discriminate].
  exists doc. destruct (build_document_ok _ _ _ Hb) as [Hc Hp].
  split; [reflexivity|]. split; [exact Hc|]. split; [now rewrite Hc | exact Hp].
Qed.

Lemma create_docx_saves_nine_chapters_witness :
  plain_values (metadata generated_session) = true /\
  plain_values (doc_sections generated_session) = true /\
  sections_fit (doc_sections generated_session) SECTIONS = true /\
  exists doc,
    create_docx (metadata generated_session) generated_session =
      (Ok doc_path, with_saved_docx (Some doc) generated_session) /\
    chapter_headings (body doc) =
      map (fun entry => title (snd entry)) (chapters SECTIONS) /\
    length (chapter_headings (body doc)) = 9 /\
    page_breaks doc = 11.
Proof.
  split; [vm_compute; reflexivity|].
  split; [vm_compute; reflexivity|].
  split; [vm_compute; reflexivity|].
  apply (create_docx_saves_nine_chapters (metadata generated_session) generated_session);
    vm_compute; reflexivity.
Defined.

(** X2. When the stored sections are plain text and some stored marker
    paragraph asks for a heading level above 9, [create_docx] raises a
    [ValueError] and leaves the session and the saved file exactly as they
    were: no partial document is written. *)
Theorem create_docx_failure_changes_nothing (md : gmap string string) (st : State) :
  plain_values (doc_sections st) = true ->
  sections_fit (doc_sections st) SECTIONS = false ->
  exists msg, create_docx md st = (Raise (ValueError msg), st).
Proof.
  intros _ Hfit. unfold create_docx.
  pose proof (build_document_is_ok (doc_sections st) md) as Hok.
  rewrite Hfit in Hok.
  destruct (build_document (doc_sections st) md) as [doc|e] eqn:Hb; [discriminate|].
  apply build_document_raise in Hb.
  destruct e as [msg| |]; try contradiction. exists msg. reflexivity.
Qed.

Lemma create_docx_failure_changes_nothing_witness :
  plain_values (doc_sections marker_session) = true /\
  sections_fit (doc_sections marker_session) SECTIONS = false /\
  exists msg,
    create_docx (metadata marker_session) marker_session =
      (Raise (ValueError msg), marker_session).
Proof.
  split; [vm_compute; reflexivity|].
  split; [vm_compute; reflexivity|].
  apply (create_docx_failure_changes_nothing (metadata marker_session) marker_session);
    vm_compute; reflexivity.
Defined.

(** X3. When no chapter has stored text, whatever else is stored, and the
    metadata values are plain text, [create_docx] succeeds and the document
    ends with one heading and one page break per chapter, in catalog order,
    after a front part that holds no chapter heading. *)
Theorem missing_sections_give_empty_chapters (ds md : gmap string string) :
  plain_values md = true ->
  (forall key info, In (key, info) (chapters SECTIONS) -> ds !! key = None) ->
  exists doc front,
    build_document ds md = Ok doc /\
    body doc = front ++ flat_map empty_chapter (chapters SECTIONS) /\
    chapter_headings front = [] /\
    count_breaks front = 2.
Proof.
  intros _ Hmiss. unfold build_document.
  cbn [add_heading Nat.leb mbind Exc_bind exc_bind add_placeholder_toc].
  match goal with
  | |- context [render_sections ds SECTIONS ?d] =>
      destruct (render_sections_missing ds SECTIONS Hmiss d) as (doc' & E & B);
      rewrite E; exists (set_footer
        [plain_run "Page "; plain_run "- {PAGE} -";
         plain_run " (Open in Word to see actual page numbers)"]
        (Some CENTER) doc'), (body d)
  end.
  split; [reflexivity|]. split; [exact B|].
  cbn [body append_block add_paragraph add_page_break].
  destruct (add_metadata_fields_body md ["author"; "institution"; "date"]
              (append_block
                 (Heading (PyStr.upper (default "PROJECT DOCUMENTATION" (md !! "title")))
                          0 (Some CENTER)) new_document))
    as (meta & Bm & Fm).
  rewrite Bm. cbn [body append_block new_document].
  rewrite !chapter_headings_app, !count_breaks_app.
  rewrite (content_blocks_no_chapter meta Fm), (content_blocks_no_break meta Fm).
  split; reflexivity.
Qed.

Lemma missing_sections_give_empty_chapters_witness :
  let ds : gmap string string := {[ "CONTENTS" := contents_literal ]} in
  plain_values (main_metadata sample_inputs) = true /\
  (forall key info, In (key, info) (chapters SECTIONS) -> ds !! key = None) /\
  exists doc front,
    build_document ds (main_metadata sample_inputs) = Ok doc /\
    body doc = front ++ flat_map empty_chapter (chapters SECTIONS) /\
    chapter_headings front = [] /\
    count_breaks front = 2.
Proof.
  cbv zeta.
  assert (Hp : plain_values (main_metadata sample_inputs) = true)
    by (vm_compute; reflexivity).
  assert (H : forall key info, In (key, info) (chapters SECTIONS) ->
                ({[ "CONTENTS" := contents_literal ]} : gmap string string) !! key = None).
  { intros key info Hin. vm_compute in Hin.
    repeat (destruct Hin as [Hin|Hin]; [inversion Hin; vm_compute; reflexivity|]).
    destruct Hin. }
  split; [exact Hp|]. split; [exact H|].
  exact (missing_sections_give_empty_chapters _ (main_metadata sample_inputs) Hp H).
Defined.

(** X4. For the metadata [main] stores, with title, author, institution
    and date in plain text, a document that is built starts with the
    upper-cased title input as the cover heading, even when that input is
    empty (the default PROJECT DOCUMENTATION is never used), then one centered
    upper-cased line for each non-empty value among author, institution and
    date, the image placeholder, a page break and the contents heading. *)
Theorem cover_page_follows_inputs (i : Inputs) (ds : gmap string string)
    (doc : Document) :
  plain_text (in_title i) = true ->
  plain_text (in_author i) = true ->
  plain_text (in_institution i) = true ->
  plain_text (in_date i) = true ->
  build_document ds (main_metadata i) = Ok doc ->
  exists rest,
    body doc =
      Heading (PyStr.upper (in_title i)) 0 (Some CENTER)
      :: cover_lines [in_author i; in_institution i; in_date i]
      ++ Paragraph [plain_run "[Space reserved for project image]"] (Some CENTER) None
      :: PageBreak
      :: Heading "TABLE OF CONTENTS" 1 None
      :: rest.
Proof.
  intros _ _ _ _.
  destruct (main_metadata_lookups i) as (Ht & _).
  unfold build_document. rewrite Ht. cbn [default from_option].
  cbn [add_heading Nat.leb mbind Exc_bind exc_bind add_placeholder_toc].
  destruct (render_sections ds SECTIONS _) as [d1|e] eqn:E; [|discriminate].
  inversion 1; subst. cbn [body set_footer].
  apply render_sections_ok in E. destruct E as (new & B & _).
  rewrite B. cbn [body append_block add_paragraph add_page_break].
  rewrite add_metadata_fields_main. cbn [body append_block new_document app].
  eexists. rewrite <- !app_assoc. cbn [app]. reflexivity.
Qed.

Lemma cover_page_follows_inputs_witness :
  plain_text (in_title sample_inputs) = true /\
  plain_text (in_author sample_inputs) = true /\
  plain_text (in_institution sample_inputs) = true /\
  plain_text (in_date sample_inputs) = true /\
  exists doc,
    build_document ∅ (main_metadata sample_inputs) = Ok doc /\
    exists rest,
      body doc =
        Heading (PyStr.upper (in_title sample_inputs)) 0 (Some CENTER)
        :: cover_lines [in_author sample_inputs; in_institution sample_inputs;
                        in_date sample_inputs]
        ++ Paragraph [plain_run "[Space reserved for project image]"] (Some CENTER) None
        :: PageBreak
        :: Heading "TABLE OF CONTENTS" 1 None
        :: rest.
Proof.
  do 4 (split; [reflexivity|]).
  destruct (build_document ∅ (main_metadata sample_inputs)) as [doc|e] eqn:E.
  - exists doc. split; [reflexivity|].
    exact (cover_page_follows_inputs sample_inputs ∅ doc
             eq_refl eq_refl eq_refl eq_refl E).
  - exfalso. vm_compute in E. discriminate.
Defined.

(** * Further properties of the feedback handler *)

Section FeedbackOutcome.

Variable oracle : Oracle.
Variable now : nat.
Variables sel fb : string.

(** The body of the feedback handler, outcome by outcome. *)
Lemma revise_section_eq (st : State) :
  revise_section oracle now sel fb st =
  match doc_sections st !! sel with
  | None => (Raise (KeyError sel), st)
  | Some current =>
      match lookup_section sel SECTIONS with
      | None => (Raise (KeyError sel), st)
      | Some info =>
          let model := select_feedback_model (length (feedback_history st)) in
          let prompt := build_feedback_prompt info current fb in
          let st1 := with_calls (calls st ++ [mkCall model sel prompt]) st in
          match oracle (length (calls st)) model prompt with
          | Failure msg => (Raise (BackendError msg), st1)
          | Content content =>
              let st2 := with_doc_sections (<[sel := content]> (doc_sections st)) st1 in
              match build_document (<[sel := content]> (doc_sections st)) (metadata st) with
              | Raise e => (Raise e, st2)
              | Ok doc =>
                  (Ok tt,
                   with_ui (ui st ++ [Success "Section updated successfully!"])
                     (with_feedback_history
                        (feedback_history st ++ [mkFeedback (title info) fb now])
                        (with_saved_docx (Some doc) st2)))
              end
          end
      end
  end.
Proof.
  cbv beta iota zeta delta [revise_section mbind M_bind m_bind modify gets
                            create_docx emit invoke store_section
                            lookup_or_raise mret M_ret m_ret raise].
  destruct (doc_sections st !! sel) as [current|]; [|reflexivity].
  destruct (lookup_section sel SECTIONS) as [info|]; [|reflexivity].
  destruct (oracle _ _ _) as [content|msg]; [|reflexivity].
  cbn [doc_sections metadata with_doc_sections with_calls].
  destruct (build_document _ _) as [doc|e]; reflexivity.
Qed.

Lemma select_feedback_model_even (n : nat) :
  select_feedback_model n = if Nat.even n then google_model else groq_model.
Proof.
  unfold select_feedback_model.
  destruct (Nat.even n) eqn:E.
  - apply Nat.even_spec in E. destruct E as [m ->].
    now rewrite Nat.mul_comm, Nat.Div0.mod_mul.
  - assert (O : Nat.odd n = true) by (now rewrite <- Nat.negb_even, E).
    apply Nat.odd_spec in O. destruct O as [m ->].
    now rewrite Nat.add_comm, Nat.mul_comm, Nat.Div0.mod_add.
Qed.

End FeedbackOutcome.

(** X5. Feedback for a section that is not stored (as after a regeneration
    that failed early) invokes no backend and changes nothing: the handler
    only shows the error of the missing key. *)
Theorem feedback_on_missing_section (oracle : Oracle) (now : nat)
    (sel fb : string) (st : State) :
  doc_sections st !! sel = None ->
  on_submit_feedback oracle now sel fb st =
  with_ui (ui st ++ [Error ("Error updating section: '" +:+ sel +:+ "'")]) st.
Proof.
  intros H. unfold on_submit_feedback, try_except.
  rewrite revise_section_eq, H. reflexivity.
Qed.

Lemma feedback_on_missing_section_witness :
  doc_sections robot_car_session !! "CHAPTER_3" = None /\
  on_submit_feedback (constant_oracle "text") 7 "CHAPTER_3" "more detail"
                     robot_car_session =
  with_ui (ui robot_car_session
             ++ [Error ("Error updating section: '" +:+ "CHAPTER_3" +:+ "'")])
          robot_car_session.
Proof.
  split; [reflexivity|].
  apply (feedback_on_missing_section (constant_oracle "text") 7 "CHAPTER_3"
           "more detail" robot_car_session).
  reflexivity.
Defined.

(** X6. When the backend fails on a feedback submission, the stored
    sections, the feedback history and the saved file stay as they were: the
    handler records the one call it made and shows one error. *)
Theorem feedback_backend_failure_keeps_section (oracle : Oracle) (now : nat)
    (sel fb : string) (st : State) (current : string) (info : SectionSpec)
    (msg : string) :
  doc_sections st !! sel = Some current ->
  lookup_section sel SECTIONS = Some info ->
  oracle (length (calls st))
         (select_feedback_model (length (feedback_history st)))
         (build_feedback_prompt info current fb) = Failure msg ->
  on_submit_feedback oracle now sel fb st =
  with_ui (ui st ++ [Error ("Error updating section: " +:+ msg)])
    (with_calls
       (calls st ++
          [mkCall (select_feedback_model (length (feedback_history st))) sel
                  (build_feedback_prompt info current fb)]) st).
Proof.
  intros Hc Hi Ho. unfold on_submit_feedback, try_except.
  rewrite revise_section_eq, Hc, Hi. cbv zeta. rewrite Ho. reflexivity.
Qed.

Lemma feedback_backend_failure_keeps_section_witness :
  let oracle := failing_oracle 9 "text" "quota exceeded" in
  exists current info,
    doc_sections generated_session !! "CHAPTER_3" = Some current /\
    lookup_section "CHAPTER_3" SECTIONS = Some info /\
    oracle (length (calls generated_session))
           (select_feedback_model (length (feedback_history generated_session)))
           (build_feedback_prompt info current "more detail") = Failure "quota exceeded" /\
    on_submit_feedback oracle 7 "CHAPTER_3" "more detail" generated_session =
    with_ui (ui generated_session ++ [Error ("Error updating section: " +:+ "quota exceeded")])
      (with_calls
         (calls generated_session ++
            [mkCall (select_feedback_model (length (feedback_history generated_session)))
                    "CHAPTER_3"
                    (build_feedback_prompt info current "more detail")])
         generated_session).
Proof.
  cbv zeta.
  assert (Hc : doc_sections generated_session !! "CHAPTER_3" = Some "text")
    by (vm_compute; reflexivity).
  assert (Hi : exists info, lookup_section "CHAPTER_3" SECTIONS = Some info)
    by (eexists; vm_compute; reflexivity).
  destruct Hi as [info Hi].
  assert (Ho : failing_oracle 9 "text" "quota exceeded"
                 (length (calls generated_session))
                 (select_feedback_model (length (feedback_history generated_session)))
                 (build_feedback_prompt info "text" "more detail")
               = Failure "quota exceeded").
  { unfold failing_oracle.
    assert (E : length (calls generated_session) = 9) by (vm_compute; reflexivity).
    rewrite E. reflexivity. }
  exists "text", info. split; [exact Hc|]. split; [exact Hi|]. split; [exact Ho|].
  exact (feedback_backend_failure_keeps_section
           (failing_oracle 9 "text" "quota exceeded") 7 "CHAPTER_3" "more detail"
           generated_session "text" info "quota exceeded" Hc Hi Ho).
Defined.

(** X7. When the backend answers a feedback submission with plain text
    holding a marker paragraph whose heading level is above 9 (the stored
    sections being plain text too), the stored section is already replaced by
    that text, but no feedback record is appended and the saved file is still
    the earlier document; one error is shown. *)
Theorem feedback_assembly_failure_keeps_old_file (oracle : Oracle) (now : nat)
    (sel fb : string) (st : State) (current : string) (info : SectionSpec)
    (content : string) :
  doc_sections st !! sel = Some current ->
  lookup_section sel SECTIONS = Some info ->
  oracle (length (calls st))
         (select_feedback_model (length (feedback_history st)))
         (build_feedback_prompt info current fb) = Content content ->
  plain_values (<[sel := content]> (doc_sections st)) = true ->
  sections_fit (<[sel := content]> (doc_sections st)) SECTIONS = false ->
  let st' := on_submit_feedback oracle now sel fb st in
  doc_sections st' = <[sel := content]> (doc_sections st) /\
  feedback_history st' = feedback_history st /\
  saved_docx st' = saved_docx st /\
  has_generated st' = has_generated st /\
  exists m, ui st' = ui st ++ [Error ("Error updating section: " +:+ m)].
Proof.
  intros Hc Hi Ho _ Hfit. cbv zeta. unfold on_submit_feedback, try_except.
  rewrite revise_section_eq, Hc, Hi. cbv zeta. rewrite Ho.
  pose proof (build_document_is_ok (<[sel := content]> (doc_sections st))
                                   (metadata st)) as Hok.
  rewrite Hfit in Hok.
  destruct (build_document _ _) as [doc|e]; [discriminate|].
  cbn. repeat split. eexists. reflexivity.
Qed.

Lemma feedback_assembly_failure_keeps_old_file_witness :
  let oracle := marker_word_oracle in
  let st := generated_session in
  exists current info,
    doc_sections st !! "CHAPTER_3" = Some current /\
    lookup_section "CHAPTER_3" SECTIONS = Some info /\
    oracle (length (calls st))
           (select_feedback_model (length (feedback_history st)))
           (build_feedback_prompt info current "more detail") = Content "#Introduction" /\
    plain_values (<["CHAPTER_3" := "#Introduction"]> (doc_sections st)) = true /\
    sections_fit (<["CHAPTER_3" := "#Introduction"]> (doc_sections st)) SECTIONS = false /\
    let st' := on_submit_feedback oracle 7 "CHAPTER_3" "more detail" st in
    doc_sections st' = <["CHAPTER_3" := "#Introduction"]> (doc_sections st) /\
    feedback_history st' = feedback_history st /\
    saved_docx st' = saved_docx st /\
    has_generated st' = has_generated st /\
    exists m, ui st' = ui st ++ [Error ("Error updating section: " +:+ m)].
Proof.
  cbv zeta.
  assert (Hc : doc_sections generated_session !! "CHAPTER_3" = Some "text")
    by (vm_compute; reflexivity).
  assert (Hi : exists info, lookup_section "CHAPTER_3" SECTIONS = Some info)
    by (eexists; vm_compute; reflexivity).
  destruct Hi as [info Hi].
  assert (Hfit : sections_fit (<["CHAPTER_3" := "#Introduction"]>
                                 (doc_sections generated_session)) SECTIONS = false)
    by (vm_compute; reflexivity).
  assert (Hplain : plain_values (<["CHAPTER_3" := "#Introduction"]>
                                   (doc_sections generated_session)) = true)
    by (vm_compute; reflexivity).
  exists "text", info. split; [exact Hc|]. split; [exact Hi|].
  split; [reflexivity|]. split; [exact Hplain|]. split; [exact Hfit|].
  exact (feedback_assembly_failure_keeps_old_file marker_word_oracle 7 "CHAPTER_3"
           "more detail" generated_session "text" info "#Introduction"
           Hc Hi eq_refl Hplain Hfit).
Defined.

(** X8. A feedback submission makes at most one backend call, for the
    selected section, with the Google model when the number of recorded
    feedback entries is even and the Groq model when it is odd; and the
    history is left as it was or grows by one record, so a submission that
    fails does not advance the alternation. *)
Theorem feedback_model_alternates (oracle : Oracle) (now : nat)
    (sel fb : string) (st : State) :
  let st' := on_submit_feedback oracle now sel fb st in
  (exists new,
     calls st' = calls st ++ new /\
     length new <= 1 /\
     Forall (fun c =>
               call_section c = sel /\
               call_model c = if Nat.even (length (feedback_history st))
                              then google_model else groq_model) new) /\
  (feedback_history st' = feedback_history st \/
   exists r, feedback_history st' = feedback_history st ++ [r] /\
             fb_feedback r = fb /\ fb_timestamp r = now).
Proof.
  cbv zeta. unfold on_submit_feedback, try_except.
  rewrite revise_section_eq.
  destruct (doc_sections st !! sel) as [current|].
  2: { split; [exists []; cbn; rewrite app_nil_r; repeat split; [lia | constructor]
              | now left]. }
  destruct (lookup_section sel SECTIONS) as [info|].
  2: { split; [exists []; cbn; rewrite app_nil_r; repeat split; [lia | constructor]
              | now left]. }
  cbv zeta. rewrite select_feedback_model_even.
  destruct (oracle _ _ _) as [content|msg].
  - destruct (build_document _ _) as [doc|e]; cbn.
    + split.
      * eexists. split; [reflexivity|]. split; [cbn; lia|].
        constructor; [split; reflexivity | constructor].
      * right. eexists. split; [reflexivity|]. split; reflexivity.
    + split; [|now left].
      eexists. split; [reflexivity|]. split; [cbn; lia|].
      constructor; [split; reflexivity | constructor].
  - cbn. split; [|now left].
    eexists. split; [reflexivity|]. split; [cbn; lia|].
    constructor; [split; reflexivity | constructor].
Qed.

(** * Further properties of the generation handler *)

Section GenerationOutcome.

Variable oracle : Oracle.
Variable a : string.

(** A loop whose backend calls all answer completes. *)
Lemma generate_sections_complete (l : list (string * SectionSpec)) :
  (forall n m p, exists text, oracle n m p = Content text) ->
  forall st, exists st', generate_sections oracle a l st = (Ok tt, st').
Proof.
  intros Hans. unfold generate_sections.
  induction l as [|[key info] l IH]; intros st.
  - exists st. reflexivity.
  - rewrite for_each_cons.
    destruct (String.eqb key "COVER_PAGE") eqn:Hc.
    { apply String.eqb_eq in Hc. subst key. rewrite generate_section_cover. apply IH. }
    destruct (String.eqb key "CONTENTS") eqn:Ht.
    { apply String.eqb_eq in Ht. subst key. rewrite generate_section_contents. apply IH. }
    rewrite (generate_section_other _ _ _ _ _ Hc Ht). cbv zeta.
    destruct (Hans (length (calls st)) (select_model (size (doc_sections st)))
                   (prompt_for a st key info)) as [text Ho].
    rewrite Ho. apply IH.
Qed.

(** The calls of a completed loop over a catalog with distinct, not yet
    stored keys. *)
Lemma generate_sections_calls (l : list (string * SectionSpec)) :
  forall st st',
    NoDup (map fst l) ->
    (forall k, In k (map fst l) -> doc_sections st !! k = None) ->
    generate_sections oracle a l st = (Ok tt, st') ->
    exists new,
      calls st' = calls st ++ new /\
      map (fun c => (call_section c, call_model c)) new =
        expected_calls (size (doc_sections st)) l.
Proof.
  unfold generate_sections.
  induction l as [|[key info] l IH]; intros st st' Hnd Hfresh H.
  { rewrite for_each_nil in H. inversion H; subst. exists [].
    split; [now rewrite app_nil_r | reflexivity]. }
  cbn [map fst] in Hnd, Hfresh. apply NoDup_cons in Hnd. destruct Hnd as [Hkey Hnd].
  rewrite for_each_cons in H. cbn [expected_calls].
  assert (Hnext : forall text st1,
            doc_sections st1 = <[key := text]> (doc_sections st) ->
            (forall k, In k (map fst l) -> doc_sections st1 !! k = None) /\
            size (doc_sections st1) = S (size (doc_sections st))).
  { intros text st1 Hds. split.
    - intros k Hk. rewrite Hds, lookup_insert_ne.
      + apply Hfresh. now right.
      + intros ->. apply Hkey. now apply list_elem_of_In.
    - rewrite Hds, map_size_insert_None; [reflexivity|]. apply Hfresh. now left. }
  destruct (String.eqb key "COVER_PAGE") eqn:Hc.
  { apply String.eqb_eq in Hc. subst key. rewrite generate_section_cover in H.
    apply (IH st st' Hnd); [|exact H]. intros k Hk. apply Hfresh. now right. }
  destruct (String.eqb key "CONTENTS") eqn:Ht.
  { apply String.eqb_eq in Ht. subst key. rewrite generate_section_contents in H.
    match type of H with
    | for_each _ _ ?s = _ => destruct (Hnext contents_literal s eq_refl) as [Hf Hs]
    end.
    destruct (IH _ _ Hnd Hf H) as (new & E & Hm).
    exists new. split; [exact E|]. rewrite Hm, Hs. reflexivity. }
  rewrite (generate_section_other _ _ _ _ _ Hc Ht) in H. cbv zeta in H.
  destruct (oracle _ _ _) as [text|msg]; [|discriminate].
  match type of H with
  | for_each _ _ ?s = _ => destruct (Hnext text s eq_refl) as [Hf Hs]
  end.
  destruct (IH _ _ Hnd Hf H) as (new & E & Hm).
  eexists (_ :: new). split.
  - rewrite E. cbn. rewrite <- app_assoc. reflexivity.
  - cbn [map call_section call_model]. rewrite Hm, Hs. reflexivity.
Qed.

(** What one iteration may add to the stored keys: its own key, when that
    is not the cover page. *)
Lemma generate_sections_keys (l : list (string * SectionSpec)) :
  forall st r st',
    generate_sections oracle a l st = (r, st') ->
    forall k, is_Some (doc_sections st' !! k) ->
              is_Some (doc_sections st !! k) \/ In k (generated_keys l).
Proof.
  unfold generate_sections.
  apply (for_each_steps (generate_section oracle a)
           (fun s s' => forall k, is_Some (doc_sections s' !! k) ->
                                  is_Some (doc_sections s !! k) \/
                                  In k (generated_keys l)) l).
  - intros s k Hk. now left.
  - intros s1 s2 s3 H12 H23 k Hk.
    destruct (H23 k Hk) as [H|H]; [now apply H12 | now right].
  - intros [key info] s q s' Hin H k Hk.
    destruct (String.eqb k key) eqn:Hkk.
    + apply String.eqb_eq in Hkk. subst k.
      destruct (String.eqb key "COVER_PAGE") eqn:Hc.
      * apply String.eqb_eq in Hc. subst key. rewrite generate_section_cover in H.
        inversion H; subst. now left.
      * right. unfold generated_keys. apply filter_In. split.
        -- apply (in_map fst) in Hin. exact Hin.
        -- now rewrite Hc.
    + left. rewrite <- (generate_section_lookup_other oracle a (key, info) k s q s');
        [exact Hk | | exact H].
      cbn [fst]. intros ->. rewrite String.eqb_refl in Hkk. discriminate.
Qed.

End GenerationOutcome.

(** X9. When every backend call answers, a generation run makes exactly
    nine calls, one per chapter in catalog order, with the Google model for
    ABSTRACT, CHAPTER_1, CHAPTER_3, CHAPTER_5 and REFERENCES and the Groq model
    for the other four. *)
Theorem answered_run_makes_nine_calls (oracle : Oracle) (a : string) (st : State) :
  PyStr.truthy a = true ->
  (forall n m p, exists text, oracle n m p = Content text) ->
  exists new,
    calls (on_generate oracle a st) = calls st ++ new /\
    map (fun c => (call_section c, call_model c)) new =
      [ ("ABSTRACT", google_model); ("LITERATURE_SURVEY", groq_model);
        ("CHAPTER_1", google_model); ("CHAPTER_2", groq_model);
        ("CHAPTER_3", google_model); ("CHAPTER_4", groq_model);
        ("CHAPTER_5", google_model); ("CHAPTER_6", groq_model);
        ("REFERENCES", google_model) ].
Proof.
  intros Ha Hans.
  destruct (on_generate_loop oracle a st Ha) as (r & st1 & Hrun & _ & Hcalls & _).
  rewrite Hcalls.
  destruct (generate_sections_complete oracle a SECTIONS Hans (with_doc_sections ∅ st))
    as [st1' Hok].
  rewrite Hok in Hrun. inversion Hrun; subst r st1'. clear Hrun.
  destruct (generate_sections_calls oracle a SECTIONS _ _
              SECTIONS_NoDup (fun k _ => lookup_empty k) Hok) as (new & E & Hm).
  exists new. split; [exact E|].
  rewrite Hm. cbn [doc_sections with_doc_sections]. rewrite map_size_empty.
  reflexivity.
Qed.

Lemma answered_run_makes_nine_calls_witness :
  PyStr.truthy robot_car_abstract = true /\
  (forall n m p, exists text, constant_oracle "text" n m p = Content text) /\
  exists new,
    calls (on_generate (constant_oracle "text") robot_car_abstract robot_car_session) =
      calls robot_car_session ++ new /\
    map (fun c => (call_section c, call_model c)) new =
      [ ("ABSTRACT", google_model); ("LITERATURE_SURVEY", groq_model);
        ("CHAPTER_1", google_model); ("CHAPTER_2", groq_model);
        ("CHAPTER_3", google_model); ("CHAPTER_4", groq_model);
        ("CHAPTER_5", google_model); ("CHAPTER_6", groq_model);
        ("REFERENCES", google_model) ].
Proof.
  assert (H : forall (n : nat) (m : Model) (p : string),
            exists text, constant_oracle "text" n m p = Content text)
    by (intros n m p; exists "text"; reflexivity).
  split; [reflexivity|]. split; [exact H|].
  exact (answered_run_makes_nine_calls (constant_oracle "text") robot_car_abstract
           robot_car_session eq_refl H).
Defined.

(** X10. A regeneration whose first backend call fails leaves only the
    contents literal stored, whatever was stored before, while the generated
    flag and the saved file stay as they were: the review panel and the
    download of an earlier run remain, over an emptied mapping. *)
Theorem failed_regeneration_discards_sections (oracle : Oracle) (a : string)
    (st : State) (msg : string) :
  PyStr.truthy a = true ->
  (forall p, oracle (length (calls st)) google_model p = Failure msg) ->
  let st' := on_generate oracle a st in
  doc_sections st' = {[ "CONTENTS" := contents_literal ]} /\
  has_generated st' = has_generated st /\
  saved_docx st' = saved_docx st /\
  feedback_history st' = feedback_history st /\
  ui st' = ui st ++ [Error ("Error generating documentation: " +:+ msg)].
Proof.
  intros Ha Hfail. cbv zeta.
  rewrite (on_generate_eq oracle a st Ha), generate_documentation_eq.
  rewrite generate_sections_front.
  assert (E : exists i1, skipn 2 SECTIONS = ("ABSTRACT", i1) :: skipn 3 SECTIONS)
    by (eexists; reflexivity).
  destruct E as (i1 & E). rewrite E. clear E.
  unfold generate_sections. rewrite for_each_cons.
  rewrite generate_section_other by reflexivity. cbv zeta.
  cbn [doc_sections calls with_doc_sections selected with_selections].
  rewrite insert_empty, map_size_singleton.
  change (select_model 1) with google_model.
  rewrite Hfail. cbn. repeat split.
Qed.

Lemma failed_regeneration_discards_sections_witness :
  let oracle := failing_oracle 9 "text" "quota exceeded" in
  PyStr.truthy robot_car_abstract = true /\
  (forall p, oracle (length (calls generated_session)) google_model p
             = Failure "quota exceeded") /\
  let st' := on_generate oracle robot_car_abstract generated_session in
  doc_sections st' = {[ "CONTENTS" := contents_literal ]} /\
  has_generated st' = has_generated generated_session /\
  saved_docx st' = saved_docx generated_session /\
  feedback_history st' = feedback_history generated_session /\
  ui st' = ui generated_session
             ++ [Error ("Error generating documentation: " +:+ "quota exceeded")].
Proof.
  cbv zeta.
  assert (H : forall p, failing_oracle 9 "text" "quota exceeded"
                          (length (calls generated_session)) google_model p
                        = Failure "quota exceeded").
  { intros p. unfold failing_oracle.
    assert (E : length (calls generated_session) = 9) by (vm_compute; reflexivity).
    rewrite E. reflexivity. }
  split; [reflexivity|]. split; [exact H|].
  exact (failed_regeneration_discards_sections
           (failing_oracle 9 "text" "quota exceeded") robot_car_abstract
           generated_session "quota exceeded" eq_refl H).
Defined.

(** X11. When the loop over the catalog completes with plain-text answers
    but a stored answer holds a marker paragraph whose heading level is above
    9, the run has stored all ten sections, then shows one error; the
    generated flag is not set and the saved file is not replaced. *)
Theorem unrenderable_answer_fails_after_storing (oracle : Oracle) (a : string)
    (st st1 : State) :
  PyStr.truthy a = true ->
  generate_sections oracle a SECTIONS (with_doc_sections ∅ st) = (Ok tt, st1) ->
  plain_values (doc_sections st1) = true ->
  sections_fit (doc_sections st1) SECTIONS = false ->
  let st' := on_generate oracle a st in
  doc_sections st' = doc_sections st1 /\
  size (doc_sections st') = 10 /\
  has_generated st' = has_generated st /\
  saved_docx st' = saved_docx st /\
  exists m, ui st' = ui st ++ [Error ("Error generating documentation: " +:+ m)].
Proof.
  intros Ha Hrun _ Hfit. cbv zeta.
  rewrite (on_generate_eq oracle a st Ha), generate_documentation_eq, Hrun.
  pose proof (build_document_is_ok (doc_sections st1) (metadata st1)) as Hok.
  rewrite Hfit in Hok.
  destruct (build_document (doc_sections st1) (metadata st1)) as [doc|e];
    [discriminate|].
  pose proof (generate_sections_rel oracle a SECTIONS _ _ _ Hrun) as [F _].
  destruct F as (_ & _ & _ & Fhg & Fsd & Fui).
  cbn [has_generated saved_docx ui with_doc_sections] in Fhg, Fsd, Fui.
  pose proof (generate_sections_dom oracle a SECTIONS _ _ Hrun) as Hdom.
  cbn [doc_sections with_doc_sections] in Hdom.
  rewrite dom_empty_L, (left_id_L ∅ (∪)) in Hdom.
  cbn [doc_sections has_generated saved_docx ui with_ui].
  split; [reflexivity|]. split.
  - rewrite <- size_dom, Hdom. vm_compute. reflexivity.
  - rewrite Fhg, Fsd, Fui. repeat split. eexists. reflexivity.
Qed.

Lemma unrenderable_answer_fails_after_storing_witness :
  PyStr.truthy robot_car_abstract = true /\
  exists st1,
    generate_sections marker_word_oracle robot_car_abstract SECTIONS
                      (with_doc_sections ∅ robot_car_session) = (Ok tt, st1) /\
    plain_values (doc_sections st1) = true /\
    sections_fit (doc_sections st1) SECTIONS = false /\
    let st' := on_generate marker_word_oracle robot_car_abstract robot_car_session in
    doc_sections st' = doc_sections st1 /\
    size (doc_sections st') = 10 /\
    has_generated st' = has_generated robot_car_session /\
    saved_docx st' = saved_docx robot_car_session /\
    exists m, ui st' = ui robot_car_session
                         ++ [Error ("Error generating documentation: " +:+ m)].
Proof.
  split; [reflexivity|].
  destruct (generate_sections marker_word_oracle robot_car_abstract SECTIONS
              (with_doc_sections ∅ robot_car_session)) as [[[]|e] st1] eqn:Hrun.
  - exists st1. split; [reflexivity|].
    assert (E : st1 = snd (generate_sections marker_word_oracle robot_car_abstract
                             SECTIONS (with_doc_sections ∅ robot_car_session)))
      by now rewrite Hrun.
    assert (Hplain : plain_values (doc_sections st1) = true)
      by (rewrite E; vm_compute; reflexivity).
    assert (Hfit : sections_fit (doc_sections st1) SECTIONS = false)
      by (rewrite E; vm_compute; reflexivity).
    split; [exact Hplain|]. split; [exact Hfit|].
    exact (unrenderable_answer_fails_after_storing marker_word_oracle
             robot_car_abstract robot_car_session st1 eq_refl Hrun Hplain Hfit).
  - exfalso. vm_compute in Hrun. discriminate.
Defined.

(** * The session over any sequence of events *)

Section Session.

Variable oracle : Oracle.

Lemma session_inv_initial : session_inv initial_state.
Proof.
  unfold session_inv, initial_state. cbn [has_generated saved_docx doc_sections].
  split; [discriminate|]. split; [discriminate|]. split.
  - rewrite dom_empty_L. apply empty_subseteq.
  - left. apply lookup_empty.
Qed.

Lemma session_inv_inputs (i : Inputs) (st : State) :
  session_inv st -> session_inv (script_inputs i st).
Proof. intros H. exact H. Qed.

Lemma session_inv_generate (a : string) (st : State) :
  session_inv st -> session_inv (on_generate oracle a st).
Proof.
  intros (Hgen & Hdoc & Hdom & Hcont).
  destruct (PyStr.truthy a) eqn:Ha.
  2: { unfold on_generate. rewrite Ha. exact (conj Hgen (conj Hdoc (conj Hdom Hcont))). }
  rewrite (on_generate_eq oracle a st Ha), generate_documentation_eq.
  destruct (generate_sections oracle a SECTIONS (with_doc_sections ∅ st))
    as [r st1] eqn:Hrun.
  pose proof (generate_sections_rel oracle a SECTIONS _ _ _ Hrun) as [F _].
  destruct F as (_ & _ & _ & Fhg & Fsd & _).
  cbn [has_generated saved_docx with_doc_sections] in Fhg, Fsd.
  assert (Hdom1 : dom (doc_sections st1) ⊆ list_to_set (generated_keys SECTIONS)).
  { intros k Hk. apply elem_of_dom in Hk.
    destruct (generate_sections_keys oracle a SECTIONS _ _ _ Hrun k Hk) as [H|H].
    - cbn [doc_sections with_doc_sections] in H. rewrite lookup_empty in H.
      destruct H as [x H]. discriminate.
    - apply elem_of_list_to_set, list_elem_of_In. exact H. }
  assert (Hcont1 : doc_sections st1 !! "CONTENTS" = Some contents_literal).
  { rewrite generate_sections_front in Hrun.
    eapply generate_sections_keep_contents; [exact Hrun|].
    cbn. apply lookup_insert_eq. }
  assert (Hkeep : session_inv st1).
  { unfold session_inv. rewrite Fhg, Fsd.
    exact (conj Hgen (conj Hdoc (conj Hdom1 (or_intror Hcont1)))). }
  destruct r as [u|e]; [|exact Hkeep].
  destruct (build_document (doc_sections st1) (metadata st1)) as [doc|e] eqn:Hb;
    [|exact Hkeep].
  unfold session_inv.
  cbn [has_generated saved_docx doc_sections with_ui with_has_generated with_saved_docx].
  split; [intros _; now exists doc|]. split.
  - intros d Hd. inversion Hd; subst d.
    rewrite page_breaks_count. exact (build_document_ok _ _ _ Hb).
  - split; [exact Hdom1 | now right].
Qed.

Lemma review_option_not_contents (sel : string) :
  existsb (String.eqb sel) review_options = true -> sel <> "CONTENTS".
Proof. intros H ->. vm_compute in H. discriminate. Qed.

Lemma session_inv_feedback (now : nat) (sel fb : string) (st : State) :
  existsb (String.eqb sel) review_options = true ->
  session_inv st -> session_inv (on_submit_feedback oracle now sel fb st).
Proof.
  intros Hsel (Hgen & Hdoc & Hdom & Hcont).
  apply review_option_not_contents in Hsel.
  assert (Hsame : session_inv st) by exact (conj Hgen (conj Hdoc (conj Hdom Hcont))).
  unfold on_submit_feedback, try_except. rewrite revise_section_eq.
  destruct (doc_sections st !! sel) as [current|] eqn:Hcur; [|exact Hsame].
  destruct (lookup_section sel SECTIONS) as [info|]; [|exact Hsame].
  cbv zeta.
  destruct (oracle _ _ _) as [content|msg]; [|exact Hsame].
  assert (Hdom1 : dom (<[sel := content]> (doc_sections st))
                    ⊆ list_to_set (generated_keys SECTIONS)).
  { rewrite dom_insert_L. intros k Hk. apply elem_of_union in Hk.
    destruct Hk as [Hk|Hk]; [|now apply Hdom].
    apply elem_of_singleton in Hk. subst k. apply Hdom, elem_of_dom. now exists current. }
  assert (Hcont1 : <[sel := content]> (doc_sections st) !! "CONTENTS" = None \/
                   <[sel := content]> (doc_sections st) !! "CONTENTS"
                     = Some contents_literal).
  { rewrite lookup_insert_ne by exact Hsel. exact Hcont. }
  destruct (build_document _ _) as [doc|e] eqn:Hb.
  - unfold session_inv.
    cbn [has_generated saved_docx doc_sections with_ui with_feedback_history
         with_saved_docx with_doc_sections with_calls].
    split; [intros _; now exists doc|]. split.
    + intros d Hd. inversion Hd; subst d.
      rewrite page_breaks_count. exact (build_document_ok _ _ _ Hb).
    + split; assumption.
  - unfold session_inv.
    cbn [has_generated saved_docx doc_sections with_ui with_doc_sections with_calls].
    exact (conj Hgen (conj Hdoc (conj Hdom1 Hcont1))).
Qed.

Lemma session_inv_handle (ev : Event) (st : State) :
  session_inv st -> session_inv (handle oracle st ev).
Proof.
  intros H. destruct ev as [i|a|now sel fb]; cbn [handle].
  - now apply session_inv_inputs.
  - now apply session_inv_generate.
  - destruct (has_generated st); [|exact H].
    destruct (existsb (String.eqb sel) review_options) eqn:Hsel; [|exact H].
    now apply session_inv_feedback.
Qed.

Lemma session_inv_run (evs : list Event) :
  forall st, session_inv st -> session_inv (run_events oracle evs st).
Proof.
  unfold run_events.
  induction evs as [|ev evs IH]; intros st H; [exact H|].
  cbn [fold_left]. apply IH. now apply session_inv_handle.
Qed.

End Session.

(** X12. After any sequence of input changes, generation requests and
    feedback submissions from a fresh session, whatever the backends answer,
    the review panel is either not shown or its download opens a saved
    document, the one the header offers too, holding the nine chapter
    headings in catalog order and eleven page breaks. *)
Theorem download_always_finds_a_document (oracle : Oracle) (evs : list Event) :
  let st := run_events oracle evs initial_state in
  review_download st = None \/
  exists doc,
    review_download st = Some (Some doc) /\
    nav_download st = Some doc /\
    chapter_headings (body doc) =
      map (fun entry => title (snd entry)) (chapters SECTIONS) /\
    page_breaks doc = 11.
Proof.
  cbv zeta.
  destruct (session_inv_run oracle evs initial_state session_inv_initial)
    as (Hgen & Hdoc & _).
  unfold review_download, nav_download.
  destruct (has_generated (run_events oracle evs initial_state)); [|now left].
  right. destruct (Hgen eq_refl) as [doc Hd]. exists doc.
  rewrite Hd. destruct (Hdoc doc Hd) as [Hc Hp]. repeat split; assumption.
Qed.

(** X13. After any such sequence of events, every stored section is filed
    under a catalog key other than COVER_PAGE, and the CONTENTS entry, when
    there is one, is the fixed literal: feedback never rewrites it. *)
Theorem stored_sections_stay_in_catalog (oracle : Oracle) (evs : list Event) :
  let st := run_events oracle evs initial_state in
  dom (doc_sections st) ⊆ list_to_set (generated_keys SECTIONS) /\
  (doc_sections st !! "CONTENTS" = None \/
   doc_sections st !! "CONTENTS" = Some contents_literal).
Proof.
  cbv zeta.
  destruct (session_inv_run oracle evs initial_state session_inv_initial)
    as (_ & _ & Hdom & Hcont).
  split; assumption.
Qed.

(** X14. The revision prompt contains, verbatim, the section's current
    text, the user's feedback, the section's description and the word limit,
    500 times the section's page count. *)
Theorem feedback_prompt_verbatim (info : SectionSpec) (current feedback : string) :
  let prompt := build_feedback_prompt info current feedback in
  PyStr.contains prompt current /\
  PyStr.contains prompt feedback /\
  PyStr.contains prompt (get_description info) /\
  PyStr.contains prompt (PyStr.of_nat (pages info * 500)).
Proof.
  cbv zeta. unfold build_feedback_prompt.
  repeat split; repeat first [apply contains_head | apply contains_skip].
Qed.

(** * Marker paragraphs in general *)

Section MarkerParagraphs.

Variable text : string.

Lemma is_empty_append_hash (cur : string) : PyStr.is_empty (cur +:+ "#") = false.
Proof. destruct cur; reflexivity. Qed.

Lemma split_go_markers :
  forall n cur,
    PyStr.split_go (markers (S n) +:+ " " +:+ text) cur =
    (cur +:+ markers (S n)) :: PyStr.split_go text "".
Proof.
  induction n as [|n IH]; intros cur.
  - change (markers 1 +:+ " " +:+ text) with (String "#" (String " " text)).
    change (PyStr.split_go (String "#" (String " " text)) cur)
      with (if PyStr.is_empty (cur +:+ "#")
            then PyStr.split_go text ""
            else (cur +:+ "#") :: PyStr.split_go text "").
    now rewrite is_empty_append_hash.
  - change (markers (S (S n)) +:+ " " +:+ text)
      with (String "#" (markers (S n) +:+ " " +:+ text)).
    change (PyStr.split_go (String "#" (markers (S n) +:+ " " +:+ text)) cur)
      with (PyStr.split_go (markers (S n) +:+ " " +:+ text) (cur +:+ "#")).
    rewrite IH, append_assoc'. reflexivity.
Qed.

Lemma strip_marker_paragraph (r : string) :
  PyStr.strip (String "#" r) = String "#" (PyStr.rstrip_by PyStr.is_space r).
Proof.
  unfold PyStr.strip, PyStr.strip_by.
  change (PyStr.lstrip_by PyStr.is_space (String "#" r)) with (String "#" r).
  cbn [PyStr.rstrip_by].
  destruct (PyStr.is_empty (PyStr.rstrip_by PyStr.is_space r)); reflexivity.
Qed.

End MarkerParagraphs.

(** X15. A paragraph made of one or more heading markers, a space and a
    plain text is always rendered, and always as a level-1 heading, whatever
    the number of markers: left-aligned, its text the words after the markers
    joined by single spaces and upper-cased. *)
Theorem marker_paragraph_always_level_one (n : nat) (text : string) (doc : Document) :
  plain_text text = true ->
  render_paragraph (markers (S n) +:+ " " +:+ text) doc =
  Ok (append_block
        (Heading (PyStr.upper (PyStr.join " " (PyStr.split text))) 1 (Some LEFT))
        doc).
Proof.
  intros _. unfold render_paragraph.
  change (markers (S n) +:+ " " +:+ text)
    with (String "#" (markers n +:+ " " +:+ text)) at 1 2.
  rewrite strip_marker_paragraph.
  change (PyStr.truthy (String "#"
            (PyStr.rstrip_by PyStr.is_space (markers n +:+ " " +:+ text)))) with true.
  change (PyStr.startswith_hash (String "#"
            (PyStr.rstrip_by PyStr.is_space (markers n +:+ " " +:+ text)))) with true.
  cbv iota. unfold PyStr.split at 1 2. rewrite split_go_markers.
  cbn [hd tl]. change ("" +:+ markers (S n)) with (markers (S n)).
  rewrite marker_run_level. reflexivity.
Qed.

Lemma marker_paragraph_always_level_one_witness :
  plain_text "Example   Heading" = true /\
  render_paragraph (markers 3 +:+ " " +:+ "Example   Heading") new_document =
  Ok (append_block
        (Heading (PyStr.upper (PyStr.join " " (PyStr.split "Example   Heading")))
                 1 (Some LEFT))
        new_document).
Proof.
  split; [reflexivity|].
  apply (marker_paragraph_always_level_one 2 "Example   Heading" new_document).
  reflexivity.
Defined.

(** * The generation loop, call by call *)

Section LoopLog.

Variable oracle : Oracle.
Variable a : string.

(** What the loop records: one model choice per processed entry, for a
    prefix of the catalog keys other than the cover page (all of them when
    the loop completes), and one backend call per choice other than the one
    for CONTENTS, for the same section and with the model chosen. *)
Lemma generate_sections_log (l : list (string * SectionSpec)) :
  forall st r st',
    generate_sections oracle a l st = (r, st') ->
    exists sels new,
      selections st' = selections st ++ sels /\
      calls st' = calls st ++ new /\
      map (fun c => (call_section c, call_model c)) new =
        map (fun s => (sel_section s, sel_model s))
            (List.filter (fun s => negb (String.eqb (sel_section s) "CONTENTS")) sels) /\
      map sel_section sels = take (length sels) (generated_keys l) /\
      (r = Ok tt -> map sel_section sels = generated_keys l).
Proof.
  unfold generate_sections.
  induction l as [|[key info] l IH]; intros st r st' H.
  { rewrite for_each_nil in H. inversion H; subst. exists [], [].
    rewrite !app_nil_r. repeat split. }
  rewrite for_each_cons in H.
  destruct (String.eqb key "COVER_PAGE") eqn:Hc.
  { assert (Hg : generated_keys ((key, info) :: l) = generated_keys l).
    { unfold generated_keys. cbn [map fst List.filter]. now rewrite Hc. }
    rewrite Hg. apply String.eqb_eq in Hc. subst key.
    rewrite generate_section_cover in H. now apply IH. }
  assert (Hg : generated_keys ((key, info) :: l) = key :: generated_keys l).
  { unfold generated_keys. cbn [map fst List.filter]. now rewrite Hc. }
  rewrite Hg.
  destruct (String.eqb key "CONTENTS") eqn:Ht.
  { apply String.eqb_eq in Ht. subst key. rewrite generate_section_contents in H.
    destruct (IH _ _ _ H) as (sels & new & Es & Ec & Hm & Hp & Hf).
    cbn [selections calls with_doc_sections selected with_selections] in Es, Ec.
    eexists (_ :: sels), new.
    split; [rewrite Es, <- app_assoc; reflexivity|].
    split; [exact Ec|].
    split; [exact Hm|].
    split; [cbn; now rewrite Hp|].
    intros Hr. cbn. now rewrite (Hf Hr). }
  rewrite (generate_section_other _ _ _ _ _ Hc Ht) in H. cbv zeta in H.
  destruct (oracle _ _ _) as [text|msg].
  - destruct (IH _ _ _ H) as (sels & new & Es & Ec & Hm & Hp & Hf).
    cbn [selections calls with_doc_sections with_calls selected with_selections]
      in Es, Ec.
    eexists (_ :: sels), (_ :: new).
    split; [rewrite Es, <- app_assoc; reflexivity|].
    split; [rewrite Ec, <- app_assoc; reflexivity|].
    split; [cbn [List.filter sel_section map call_section call_model sel_model];
            rewrite Ht; cbn [negb map sel_section sel_model]; now rewrite Hm|].
    split; [cbn; now rewrite Hp|].
    intros Hr. cbn. now rewrite (Hf Hr).
  - inversion H; subst.
    eexists [_], [_].
    split; [reflexivity|]. split; [reflexivity|].
    split; [cbn [List.filter sel_section map call_section call_model sel_model];
            rewrite Ht; reflexivity|].
    split; [reflexivity | discriminate].
Qed.

(** What the backends answered to the calls of the loop, over a catalog with
    distinct keys: a call that was answered has its answer stored under its
    section when the loop ends; a call that failed made the loop raise, and is
    the last call made. *)
Lemma generate_sections_answers (l : list (string * SectionSpec)) :
  forall st r st',
    NoDup (map fst l) ->
    generate_sections oracle a l st = (r, st') ->
    exists new,
      calls st' = calls st ++ new /\
      forall j c, new !! j = Some c ->
        match oracle (length (calls st) + j) (call_model c) (call_prompt c) with
        | Content text => doc_sections st' !! call_section c = Some text
        | Failure msg => r = Raise (BackendError msg) /\ S j = length new
        end.
Proof.
  unfold generate_sections.
  induction l as [|[key info] l IH]; intros st r st' Hnd H.
  { rewrite for_each_nil in H. inversion H; subst. exists [].
    split; [now rewrite app_nil_r|]. intros j c Hj. now rewrite lookup_nil in Hj. }
  cbn [map fst] in Hnd. apply NoDup_cons in Hnd. destruct Hnd as [Hkey Hnd].
  rewrite for_each_cons in H.
  destruct (String.eqb key "COVER_PAGE") eqn:Hc.
  { apply String.eqb_eq in Hc. subst key. rewrite generate_section_cover in H.
    now apply IH. }
  destruct (String.eqb key "CONTENTS") eqn:Ht.
  { apply String.eqb_eq in Ht. subst key. rewrite generate_section_contents in H.
    destruct (IH _ _ _ Hnd H) as (new & E & Hj).
    cbn [calls with_doc_sections selected with_selections] in E, Hj.
    exists new. split; assumption. }
  rewrite (generate_section_other _ _ _ _ _ Hc Ht) in H. cbv zeta in H.
  destruct (oracle (length (calls st)) (select_model (size (doc_sections st)))
                   (prompt_for a st key info)) as [text|msg] eqn:Ho.
  - pose proof (generate_sections_lookup_other oracle a l key
                  (fun Hin => Hkey (proj2 (list_elem_of_In _ _) Hin)) _ _ _ H) as Hkeep.
    cbn [doc_sections with_doc_sections] in Hkeep. rewrite lookup_insert_eq in Hkeep.
    destruct (IH _ _ _ Hnd H) as (new & E & Hj).
    cbn [calls with_doc_sections with_calls selected with_selections] in E, Hj.
    eexists (_ :: new). split; [rewrite E, <- app_assoc; reflexivity|].
    intros [|j] c Hl.
    + cbn in Hl. inversion Hl; subst c. cbn [call_model call_section call_prompt].
      rewrite Nat.add_0_r, Ho. exact Hkeep.
    + cbn in Hl. specialize (Hj j c Hl).
      rewrite length_app in Hj. cbn [length] in Hj.
      replace (length (calls st) + S j) with (length (calls st) + 1 + j) by lia.
      destruct (oracle (length (calls st) + 1 + j) (call_model c) (call_prompt c))
        as [text'|msg']; [exact Hj|].
      destruct Hj as [Hr Hlen]. split; [exact Hr | cbn; lia].
  - inversion H; subst. eexists [_]. split; [reflexivity|].
    intros [|j] c Hl; cbn in Hl; [|destruct j; discriminate].
    inversion Hl; subst c. cbn [call_model call_section call_prompt].
    rewrite Nat.add_0_r, Ho. split; reflexivity.
Qed.

End LoopLog.

(** * Claims about model selection and about a failing backend *)

(** C5. Backend selection in a generation run is positional. The run
    chooses a model for a non-empty prefix of the catalog sections other than
    the cover page, for all ten of them when every backend call answers; the
    model chosen for the [i]-th of them is chosen while [i] sections are
    stored and is the Groq model when that count is even and the Google model
    when it is odd, whatever the section; and every backend call of the run is
    made for a section other than CONTENTS with the model chosen for it, one
    call per such choice and in the same order. *)
Theorem backend_selection_positional (oracle : Oracle) (a : string) (st : State) :
  PyStr.truthy a = true ->
  let st' := on_generate oracle a st in
  exists sels new,
    selections st' = selections st ++ sels /\
    calls st' = calls st ++ new /\
    1 <= length sels /\
    map sel_section sels = take (length sels) (generated_keys SECTIONS) /\
    ((forall n m p, exists text, oracle n m p = Content text) -> length sels = 10) /\
    (forall i s, sels !! i = Some s ->
       sel_count s = i /\
       (Nat.Even (sel_count s) -> sel_model s = groq_model) /\
       (Nat.Odd (sel_count s) -> sel_model s = google_model)) /\
    map (fun c => (call_section c, call_model c)) new =
      map (fun s => (sel_section s, sel_model s))
          (List.filter (fun s => negb (String.eqb (sel_section s) "CONTENTS")) sels).
Proof.
  intros Ha. cbv zeta.
  destruct (on_generate_loop oracle a st Ha) as (r & st1 & Hrun & _ & Hcalls & Hsel).
  rewrite Hcalls, Hsel.
  destruct (generate_sections_log oracle a SECTIONS _ _ _ Hrun)
    as (sels & new & Es & Ec & Hm & Hp & Hf).
  cbn [selections calls with_doc_sections] in Es, Ec.
  exists sels, new.
  split; [exact Es|]. split; [exact Ec|]. split; [|split; [exact Hp|split; [|split]]].
  - pose proof Hrun as Hrun2. rewrite generate_sections_front in Hrun2.
    destruct (generate_sections_selections_extend oracle a _ _ _ _ Hrun2) as [more Em].
    cbn [selections with_doc_sections selected with_selections] in Em.
    rewrite Es, <- app_assoc in Em. apply app_inv_head in Em. rewrite Em. cbn. lia.
  - intros Hans.
    destruct (generate_sections_complete oracle a SECTIONS Hans (with_doc_sections ∅ st))
      as [st1' Hok].
    rewrite Hok in Hrun. inversion Hrun; subst r st1'.
    rewrite <- (length_map sel_section), (Hf eq_refl). reflexivity.
  - destruct (generate_sections_selections oracle a SECTIONS _ _ _
                SECTIONS_NoDup (fun k _ => lookup_empty k) Hrun) as (sels' & E' & Hn).
    cbn [selections with_doc_sections] in E'.
    rewrite Es in E'. apply app_inv_head in E'. subst sels'.
    intros i s Hi. destruct (Hn i s Hi) as [Hcount Hmodel]. cbn in Hcount.
    rewrite map_size_empty in Hcount. cbn in Hcount.
    split; [exact Hcount|]. rewrite Hmodel. split.
    + apply select_model_Even.
    + apply select_model_Odd.
  - exact Hm.
Qed.

Lemma backend_selection_positional_witness :
  PyStr.truthy robot_car_abstract = true /\
  let st' := on_generate (constant_oracle "text") robot_car_abstract robot_car_session in
  exists sels new,
    selections st' = selections robot_car_session ++ sels /\
    calls st' = calls robot_car_session ++ new /\
    1 <= length sels /\
    map sel_section sels = take (length sels) (generated_keys SECTIONS) /\
    ((forall n m p, exists text, constant_oracle "text" n m p = Content text) ->
     length sels = 10) /\
    (forall i s, sels !! i = Some s ->
       sel_count s = i /\
       (Nat.Even (sel_count s) -> sel_model s = groq_model) /\
       (Nat.Odd (sel_count s) -> sel_model s = google_model)) /\
    map (fun c => (call_section c, call_model c)) new =
      map (fun s => (sel_section s, sel_model s))
          (List.filter (fun s => negb (String.eqb (sel_section s) "CONTENTS")) sels).
Proof.
  split; [reflexivity|].
  apply (backend_selection_positional (constant_oracle "text") robot_car_abstract
           robot_car_session).
  reflexivity.
Defined.

(** C6 as stated fails: a regeneration over ten stored sections whose first
    backend call fails leaves one entry; the abstract stored before the
    failure is gone. *)
Lemma failed_regeneration_loses_stored_sections :
  let oracle := failing_oracle 9 "text" "quota exceeded" in
  let st := generated_session in
  let st' := on_generate oracle robot_car_abstract st in
  (exists c,
     calls st' !! (length (calls st) + 0) = Some c /\
     oracle (length (calls st) + 0) (call_model c) (call_prompt c)
       = Failure "quota exceeded") /\
  size (doc_sections st) = 10 /\
  doc_sections st !! "ABSTRACT" = Some "text" /\
  size (doc_sections st') = 1 /\
  doc_sections st' !! "ABSTRACT" = None.
Proof.
  cbv zeta. split.
  - destruct (calls (on_generate (failing_oracle 9 "text" "quota exceeded")
                       robot_car_abstract generated_session)
              !! (length (calls generated_session) + 0)) as [c|] eqn:E;
      [|exfalso; vm_compute in E; discriminate].
    exists c. split; [reflexivity|].
    assert (El : length (calls generated_session) + 0 = 9) by (vm_compute; reflexivity).
    rewrite El. reflexivity.
  - repeat split; vm_compute; reflexivity.
Qed.

(** C6, amended. When a backend invocation fails during a generation run,
    the run stops at that call: the failing call is the last one made, one
    error message with the backend's message is shown, and the generated flag,
    the saved file and the feedback history are untouched. Every entry this
    run stored before the failure is kept: CONTENTS holds the literal, every
    earlier call was answered and its answer is stored under its section, and
    the stored sections are exactly those of the catalog entries processed
    before the failing one, from the mapping the run cleared when it
    started. *)
Theorem backend_failure_aborts_run (oracle : Oracle) (a : string) (st : State)
    (i : nat) (c : Call) (msg : string) :
  PyStr.truthy a = true ->
  calls (on_generate oracle a st) !! (length (calls st) + i) = Some c ->
  oracle (length (calls st) + i) (call_model c) (call_prompt c) = Failure msg ->
  let st' := on_generate oracle a st in
  length (calls st') = length (calls st) + S i /\
  ui st' = ui st ++ [Error ("Error generating documentation: " +:+ msg)] /\
  has_generated st' = has_generated st /\
  saved_docx st' = saved_docx st /\
  feedback_history st' = feedback_history st /\
  doc_sections st' !! "CONTENTS" = Some contents_literal /\
  (forall j cj,
     j < i ->
     calls st' !! (length (calls st) + j) = Some cj ->
     exists text,
       oracle (length (calls st) + j) (call_model cj) (call_prompt cj) = Content text /\
       doc_sections st' !! call_section cj = Some text) /\
  exists done key info rest st_d,
    SECTIONS = done ++ (key, info) :: rest /\
    call_section c = key /\
    generate_sections oracle a done (with_doc_sections ∅ st) = (Ok tt, st_d) /\
    doc_sections st' = doc_sections st_d.
Proof.
  intros Ha Hc Ho. cbv zeta.
  destruct (on_generate_loop oracle a st Ha) as (r & st1 & Hrun & Hds & Hcalls & _).
  destruct (generate_sections_answers oracle a SECTIONS _ _ _ SECTIONS_NoDup Hrun)
    as (new & E & Hans).
  cbn [calls with_doc_sections] in E, Hans.
  assert (Hlook : forall j, calls (on_generate oracle a st) !! (length (calls st) + j)
                            = new !! j).
  { intros j. rewrite Hcalls, E, lookup_app_r by lia. f_equal. lia. }
  rewrite Hlook in Hc.
  pose proof (Hans i c Hc) as Hi. rewrite Ho in Hi. destruct Hi as [Hr Hlen]. subst r.
  assert (Hbody : generate_documentation oracle a st = (Raise (BackendError msg), st1))
    by (rewrite generate_documentation_eq, Hrun; reflexivity).
  pose proof (generation_backend_error_state oracle a st msg st1 Ha Hbody) as Hst.
  cbv zeta in Hst.
  destruct Hst as (Hui & Hhg & Hsd & Hfh & done & key & info & rest & st_d & model
                   & prompt & Hsplit & Hdone & _ & Hcl & Hdsd).
  assert (Hlength : length (calls (on_generate oracle a st)) = length (calls st) + S i).
  { rewrite Hcalls, E, length_app. lia. }
  split; [exact Hlength|].
  split; [exact Hui|]. split; [exact Hhg|]. split; [exact Hsd|]. split; [exact Hfh|].
  split; [|split].
  - rewrite Hds. rewrite generate_sections_front in Hrun.
    eapply generate_sections_keep_contents; [exact Hrun|].
    cbn. apply lookup_insert_eq.
  - intros j cj Hlt Hj. rewrite Hlook in Hj.
    pose proof (Hans j cj Hj) as Hjans.
    destruct (oracle (length (calls st) + j) (call_model cj) (call_prompt cj))
      as [text|msg'].
    + exists text. split; [reflexivity|]. rewrite Hds. exact Hjans.
    + destruct Hjans as [_ Hl]. lia.
  - exists done, key, info, rest, st_d.
    split; [exact Hsplit|]. split; [|split; [exact Hdone | exact Hdsd]].
    assert (Hmid : calls (on_generate oracle a st) !! (length (calls st) + i)
                   = Some (mkCall model key prompt)).
    { rewrite Hcl. apply list_lookup_middle.
      rewrite Hcl, length_app in Hlength. cbn [length] in Hlength. lia. }
    rewrite Hlook, Hc in Hmid. inversion Hmid. reflexivity.
Qed.

Lemma backend_failure_aborts_run_witness :
  let oracle := failing_oracle 12 "text" "quota exceeded" in
  let st := generated_session in
  PyStr.truthy robot_car_abstract = true /\
  exists c,
    calls (on_generate oracle robot_car_abstract st) !! (length (calls st) + 3) = Some c /\
    oracle (length (calls st) + 3) (call_model c) (call_prompt c)
      = Failure "quota exceeded" /\
    let st' := on_generate oracle robot_car_abstract st in
    length (calls st') = length (calls st) + S 3 /\
    ui st' = ui st ++ [Error ("Error generating documentation: " +:+ "quota exceeded")] /\
    has_generated st' = has_generated st /\
    saved_docx st' = saved_docx st /\
    feedback_history st' = feedback_history st /\
    doc_sections st' !! "CONTENTS" = Some contents_literal /\
    (forall j cj,
       j < 3 ->
       calls st' !! (length (calls st) + j) = Some cj ->
       exists text,
         oracle (length (calls st) + j) (call_model cj) (call_prompt cj) = Content text /\
         doc_sections st' !! call_section cj = Some text) /\
    exists done key info rest st_d,
      SECTIONS = done ++ (key, info) :: rest /\
      call_section c = key /\
      generate_sections oracle robot_car_abstract done (with_doc_sections ∅ st)
        = (Ok tt, st_d) /\
      doc_sections st' = doc_sections st_d.
Proof.
  cbv zeta. split; [reflexivity|].
  destruct (calls (on_generate (failing_oracle 12 "text" "quota exceeded")
                     robot_car_abstract generated_session)
            !! (length (calls generated_session) + 3)) as [c|] eqn:E;
    [|exfalso; vm_compute in E; discriminate].
  assert (Ho : failing_oracle 12 "text" "quota exceeded"
                 (length (calls generated_session) + 3) (call_model c) (call_prompt c)
               = Failure "quota exceeded").
  { assert (El : length (calls generated_session) + 3 = 12) by (vm_compute; reflexivity).
    rewrite El. reflexivity. }
  exists c. split; [reflexivity|]. split; [exact Ho|].
  exact (backend_failure_aborts_run (failing_oracle 12 "text" "quota exceeded")
           robot_car_abstract generated_session 3 c "quota exceeded" eq_refl E Ho).
Defined.
